(** * The portfolio report of cryptonaire_reports

    A shallow embedding of [cryptonaire_reports/reports/portfolio.py]: the
    three balance collectors, [combine_balances], [get_rename_map] and
    [report], together with the part of Python and pandas they run on.

    Numbers are IEEE binary64 values ([PrimFloat.float]), which is what a
    Python [float] and a pandas [float64] column hold; a column that holds
    a string or only [None] is an [object] column, on which pandas works
    with Python's own operators.  The exchange, network and manual-file
    adapters and the CoinMarketCap client are the repository's
    collaborators and enter as data of a [Portfolio]: the balances they
    return are floats, the coin information strings, floats and [None]. *)

From Stdlib Require Import List String Ascii Bool Arith Lia.
From Stdlib Require Import Permutation Sorted OrderedTypeEx.
From Stdlib Require Import Floats.
Import ListNotations.
Local Open Scope string_scope.
Local Open Scope list_scope.

(** ** Python: exceptions, calls to collaborators, sets, [str.join] *)

Module Python.

(** The exceptions a report ends with, by class; [KeyError] with its
    key, and [Failure] for whatever an adapter or the client raises. *)
Inductive exn : Type :=
| KeyError (key : string)
| ValueError
| TypeError
| ZeroDivisionError
| Failure (who : string).

Inductive result (A : Type) : Type :=
| Ok (a : A)
| Raise (e : exn).
Arguments Ok {A} a.
Arguments Raise {A} e.

Definition bind {A B} (r : result A) (k : A -> result B) : result B :=
  match r with
  | Ok a => k a
  | Raise e => Raise e
  end.

(** The calls a report makes on its collaborators, in the order made. *)
Inductive call : Type :=
| GetBalances (adapter : string)
| GetCoinInfo (coin_list : list string).

(** A computation that calls collaborators: it extends the log of calls
    made so far and returns or raises. *)
Definition Run (A : Type) : Type := list call -> list call * result A.

Definition ret {A} (a : A) : Run A := fun log => (log, Ok a).

Definition lift {A} (r : result A) : Run A := fun log => (log, r).

Definition invoke {A} (c : call) (outcome : result A) : Run A :=
  fun log => (log ++ [c], outcome).

Definition bindR {A B} (m : Run A) (k : A -> Run B) : Run B :=
  fun log =>
    match m log with
    | (log', Ok a) => k a log'
    | (log', Raise e) => (log', Raise e)
    end.

(** What one interpreter process fixes about [set] objects of strings:
    the order in which [set(xs)] is iterated.  It comes from the string
    hashes, which CPython salts per process. *)
Record process : Type := { set_iter : list string -> list string }.

(** Whatever the order, iterating [set(xs)] yields each distinct member
    of [xs] once. *)
Definition iterates_sets (py : process) : Prop :=
  forall xs, NoDup (set_iter py xs) /\
             (forall x, In x (set_iter py xs) <-> In x xs).

(** Two processes: one iterates a set in the order of the list it was
    built from (a repeated member at its last place), the other in the
    opposite order. *)
Definition forward : process := {| set_iter := nodup string_dec |}.

Definition backward : process :=
  {| set_iter := fun xs => rev (nodup string_dec xs) |}.

(** The process that iterates every set in the opposite order of [py]. *)
Definition opposite (py : process) : process :=
  {| set_iter := fun xs => rev (set_iter py xs) |}.

(** [sep.join(parts)] *)
Definition join (sep : string) (parts : list string) : string :=
  String.concat sep parts.

(** A [dict] with string keys, in insertion order. *)
Definition dict (V : Type) : Type := list (string * V).

Fixpoint get {V} (d : dict V) (k : string) : option V :=
  match d with
  | [] => None
  | (k', v) :: rest => if String.eqb k' k then Some v else get rest k
  end.

Definition keys {V} (d : dict V) : list string := map fst d.

End Python.

Export Python.

Declare Scope run_scope.
Delimit Scope run_scope with run.
Notation "x <- m ;; k" := (bindR m (fun x => k))
  (at level 61, m at next level, right associativity) : run_scope.
Notation "'try' x <- r ;; k" := (bind r (fun x => k))
  (at level 61, x name, r at next level, right associativity).

(** ** pandas: the frames and operations the report uses *)

Module Pandas.

(** A value the client returns and a frame holds: a Python [str], a
    Python [float], or [None].  [Num nan] is the float NaN, which pandas
    also writes where an entry lacks a field and in a cell of a join
    without a match. *)
Inductive cell : Type :=
| Str (s : string)
| Num (x : float)
| PyNone.

Definition NaN : cell := Num nan.

Definition is_str (c : cell) : bool :=
  match c with
  | Str _ => true
  | _ => false
  end.

Definition is_num (c : cell) : bool :=
  match c with
  | Num _ => true
  | _ => false
  end.

(** The two kinds of column the report meets: [float64], whose cells are
    all numbers, and [object], whose cells are the Python values
    themselves. *)
Inductive dtype : Type :=
| Float64
| Object.

Definition dtype_of (col : list cell) : dtype :=
  if forallb is_num col then Float64 else Object.

Inductive label : Type :=
| Key (s : string)
| Pos (n : nat).

Definition label_eqb (a b : label) : bool :=
  match a, b with
  | Key s, Key t => String.eqb s t
  | Pos n, Pos m => Nat.eqb n m
  | _, _ => false
  end.

Inductive Index : Type :=
| LabelIndex (name : option string) (labels : list string)
| RangeIndex (stop : nat).

Definition labels_of (ix : Index) : list label :=
  match ix with
  | LabelIndex _ ks => map Key ks
  | RangeIndex n => map Pos (seq 0 n)
  end.

(** A frame, column by column; every column is as long as the index. *)
Record DataFrame : Type :=
  { index : Index;
    columns : list (string * list cell) }.

Definition column_names (df : DataFrame) : list string :=
  map fst (columns df).

Definition mem (c : string) (cs : list string) : bool :=
  existsb (String.eqb c) cs.

(** [df[c]] *)
Definition getitem (df : DataFrame) (c : string) : result (list cell) :=
  match get (columns df) c with
  | Some col => Ok col
  | None => Raise (KeyError c)
  end.

Fixpoint replace_column (c : string) (col : list cell)
         (cols : list (string * list cell)) : list (string * list cell) :=
  match cols with
  | [] => []
  | (c', col') :: rest =>
      if String.eqb c' c then (c', col) :: rest
      else (c', col') :: replace_column c col rest
  end.

(** [df[c] = col]: an existing column is overwritten in place, a new one
    is appended. *)
Definition set_column (cols : list (string * list cell)) (c : string) (col : list cell)
  : list (string * list cell) :=
  if mem c (map fst cols) then replace_column c col cols else cols ++ [(c, col)].

Definition setitem (df : DataFrame) (c : string) (col : list cell) : DataFrame :=
  {| index := index df;
     columns := set_column (columns df) c col |}.

(** [df.iat[i, c]]: the cell of row [i] (by position) in column [c]. *)
Definition iat (df : DataFrame) (i : nat) (c : string) : option cell :=
  match get (columns df) c with
  | Some col => nth_error col i
  | None => None
  end.

(** The numbers of a [float64] column. *)
Fixpoint to_numeric (col : list cell) : result (list float) :=
  match col with
  | [] => Ok []
  | Num x :: rest => try xs <- to_numeric rest ;; Ok (x :: xs)
  | _ :: _ => Raise TypeError
  end.

(** One cell of [a * b] for a [float64] column [a] and any column [b].
    On an [object] column pandas multiplies the Python values; where that
    raises [TypeError] it multiplies once more, now only the rows in which
    neither value is missing, and leaves NaN in the others. *)
Definition multiply_cell (x : float) (y : cell) : result float :=
  match y with
  | Num p => Ok (PrimFloat.mul x p)
  | PyNone => Ok nan
  | Str _ => if PrimFloat.is_nan x then Ok nan else Raise TypeError
  end.

(** [a * b] for a [float64] column [a] and any column [b] of one frame. *)
Fixpoint multiply (a : list float) (b : list cell) : result (list float) :=
  match a, b with
  | x :: a', y :: b' =>
      try v <- multiply_cell x y ;;
      try rest <- multiply a' b' ;;
      Ok (v :: rest)
  | _, _ => Ok []
  end.

(** numpy's sum of a [float64] array, pairwise summation
    ([DOUBLE_pairwise_sum]): fewer than eight numbers are added one after
    the other; up to 128 numbers are added in eight lanes, the lanes are
    combined, and what is left of the array is added one after the other;
    a longer array is split in two halves, the first a multiple of eight
    long.  [fuel] bounds the depth of the splitting. *)
Definition add_to (res : float) (a : list float) : float :=
  fold_left PrimFloat.add a res.

Fixpoint add_lanes (r block : list float) : list float :=
  match r, block with
  | x :: r', y :: block' => PrimFloat.add x y :: add_lanes r' block'
  | _, _ => []
  end.

Fixpoint accumulate_blocks (count : nat) (r rest : list float)
  : list float * list float :=
  match count with
  | 0 => (r, rest)
  | S count' => accumulate_blocks count' (add_lanes r (firstn 8 rest)) (skipn 8 rest)
  end.

Definition combine_lanes (r : list float) : float :=
  match r with
  | [r0; r1; r2; r3; r4; r5; r6; r7] =>
      PrimFloat.add (PrimFloat.add (PrimFloat.add r0 r1) (PrimFloat.add r2 r3))
                    (PrimFloat.add (PrimFloat.add r4 r5) (PrimFloat.add r6 r7))
  | _ => 0%float
  end.

Definition unrolled_sum (a : list float) : float :=
  let '(r, rest) :=
    accumulate_blocks (List.length a / 8 - 1) (firstn 8 a) (skipn 8 a) in
  add_to (combine_lanes r) rest.

Fixpoint pairwise_sum (fuel : nat) (a : list float) : float :=
  let n := List.length a in
  if Nat.ltb n 8 then add_to 0%float a
  else if Nat.leb n 128 then unrolled_sum a
  else match fuel with
       | 0 => unrolled_sum a
       | S fuel' =>
           let n2 := n / 2 - (n / 2) mod 8 in
           PrimFloat.add (pairwise_sum fuel' (firstn n2 a))
                         (pairwise_sum fuel' (skipn n2 a))
       end.

(** [Series.sum()] of a [float64] column: NaN counts as 0 ([skipna]), and
    numpy adds the values to the identity 0. *)
Definition sum (xs : list float) : float :=
  let values := map (fun x => if PrimFloat.is_nan x then 0%float else x) xs in
  PrimFloat.add 0%float (pairwise_sum (List.length values) values).

(** [Series.sum()] of an [object] column of floats: NaN counts as 0, and
    the values are added with Python's [+], one after the other, starting
    from the first. *)
Definition object_sum (xs : list float) : float :=
  match map (fun x => if PrimFloat.is_nan x then 0%float else x) xs with
  | [] => 0%float
  | v :: values => fold_left PrimFloat.add values v
  end.

Definition column_sum (dt : dtype) (xs : list float) : float :=
  match dt with
  | Float64 => sum xs
  | Object => object_sum xs
  end.

(** [x / d] for a [float64] column [x] and a number [d]: IEEE division,
    which raises nothing. *)
Definition div (xs : list float) (d : float) : list float :=
  map (fun x => PrimFloat.div x d) xs.

(** [x / d] for a column [x] of either kind: on an [object] column the
    division is Python's, which raises when [d] is zero and there is a
    cell to divide. *)
Definition truediv (dt : dtype) (xs : list float) (d : float) : result (list float) :=
  match dt, xs with
  | Float64, _ => Ok (div xs d)
  | Object, [] => Ok []
  | Object, _ :: _ =>
      if PrimFloat.eqb d 0%float then Raise ZeroDivisionError else Ok (div xs d)
  end.

(** The sorted distinct keys of a [groupby] ([sort=True], the default):
    strings in code-point order. *)
Fixpoint insert_key (k : string) (ks : list string) : list string :=
  match ks with
  | [] => [k]
  | k' :: rest =>
      match String.compare k k' with
      | Lt => k :: ks
      | Eq => ks
      | Gt => k' :: insert_key k rest
      end
  end.

Definition group_keys (col : list string) : list string :=
  fold_right insert_key [] col.

(** The columns of [DataFrame.from_dict(data, orient="index")]: the keys
    of the inner dicts, in order of first appearance. *)
Definition add_field (seen : list string) (k : string) : list string :=
  if mem k seen then seen else seen ++ [k].

Definition field_names (data : dict (dict cell)) : list string :=
  fold_left (fun seen entry => fold_left add_field (keys (snd entry)) seen)
            data [].

(** The values of a field, entry by entry, NaN where an entry lacks the
    field. *)
Definition field_values (data : dict (dict cell)) (c : string) : list cell :=
  map (fun entry => match get (snd entry) c with
                    | Some v => v
                    | None => NaN
                    end) data.

Definition none_to_nan (c : cell) : cell :=
  match c with
  | PyNone => NaN
  | _ => c
  end.

(** The column pandas makes of the values of one field: when none is a
    string and some is a number they become a [float64] column, in which
    [None] is NaN; any other values are kept as they are, in an [object]
    column. *)
Definition maybe_convert_objects (col : list cell) : list cell :=
  if existsb is_str col then col
  else if existsb is_num col then map none_to_nan col
  else col.

(** [DataFrame.from_dict(data, orient="index")]: a row for each key, a
    column for each field. *)
Definition from_dict_index (data : dict (dict cell)) : DataFrame :=
  {| index := LabelIndex None (keys data);
     columns :=
       map (fun c => (c, maybe_convert_objects (field_values data c)))
           (field_names data) |}.

(** [df.index.name = name] *)
Definition set_index_name (df : DataFrame) (name : string) : DataFrame :=
  {| index := match index df with
              | LabelIndex _ ks => LabelIndex (Some name) ks
              | RangeIndex n => RangeIndex n
              end;
     columns := columns df |}.

Fixpoint position (l : label) (ls : list label) : option nat :=
  match ls with
  | [] => None
  | l' :: rest =>
      if label_eqb l' l then Some 0
      else option_map S (position l rest)
  end.

(** The cells of a column of the right frame, brought to the rows of the
    left one; NaN where the right frame has no such row. *)
Definition reindex (left right : list label) (col : list cell) : list cell :=
  map (fun l => match position l right with
                | Some i => nth i col NaN
                | None => NaN
                end) left.

(** [left.join(right)]: a left join on the index.  The rows and their
    order are those of [left]; a column the two frames share raises
    [ValueError]. *)
Definition join (left right : DataFrame) : result DataFrame :=
  if existsb (fun c => mem c (column_names right)) (column_names left)
  then Raise ValueError
  else Ok {| index := index left;
             columns :=
               columns left ++
               map (fun c => (fst c, reindex (labels_of (index left))
                                             (labels_of (index right)) (snd c)))
                   (columns right) |}.

Definition label_cell (l : string) : cell := Str l.

(** [df.reset_index(inplace=True)]: the index becomes the first column,
    under the index's name, and the rows are numbered; a column of that
    name raises [ValueError]. *)
Definition reset_index (df : DataFrame) : result DataFrame :=
  match index df with
  | LabelIndex name ks =>
      let c := match name with Some n => n | None => "index" end in
      if mem c (column_names df)
      then Raise ValueError
      else Ok {| index := RangeIndex (List.length ks);
                 columns := (c, map label_cell ks) :: columns df |}
  | RangeIndex n =>
      if mem "index" (column_names df)
      then Raise ValueError
      else Ok {| index := RangeIndex n;
                 columns := ("index", map (fun _ => NaN) (seq 0 n)) :: columns df |}
  end.

(** [df.rename(columns=mapper)]: a column the mapper does not list keeps
    its name; the order of the columns is kept. *)
Definition rename (df : DataFrame) (mapper : dict string) : DataFrame :=
  {| index := index df;
     columns := map (fun c => (match get mapper (fst c) with
                               | Some new => new
                               | None => fst c
                               end, snd c)) (columns df) |}.

End Pandas.

Export Pandas.

(** ** [class Portfolio(Report)] *)

Module Portfolio.

(** A row [(source, symbol, balance)] of the tuples the adapters return,
    and of [balances_pdf]. *)
Record BalanceRecord : Type :=
  { source : string;
    symbol : string;
    balance : float }.

(** An exchange, network or manual-file adapter as the report sees it:
    its [name], and what its [get_balances()] does when called. *)
Record Adapter : Type :=
  { name : string;
    get_balances : result (list BalanceRecord) }.

(** [self]: the adapters [Report.__init__] configured, the CoinMarketCap
    client ([get_coin_info] on a set of symbols, given by its sorted
    members), and the [raw] flag. *)
Record Portfolio : Type :=
  { exchanges : list Adapter;
    networks : list Adapter;
    manual : option Adapter;
    coin_market_cap : list string -> result (dict (dict cell));
    raw_format : bool }.

(** The loop of [get_balances_from_exchanges] and, with [network] for
    [exchange], of [get_balances_from_networks]: a falsy balance is
    skipped, any other extends [balances]. *)
Fixpoint collect (adapters : list Adapter) (balances : list BalanceRecord)
  : Run (list BalanceRecord) :=
  match adapters with
  | [] => ret balances
  | exchange :: rest =>
      (exchange_balance <- invoke (GetBalances (name exchange)) (get_balances exchange) ;;
       match exchange_balance with
       | [] => collect rest balances
       | _ :: _ => collect rest (balances ++ exchange_balance)
       end)%run
  end.

Definition get_balances_from_exchanges (self : Portfolio) : Run (list BalanceRecord) :=
  collect (exchanges self) [].

Definition get_balances_from_networks (self : Portfolio) : Run (list BalanceRecord) :=
  collect (networks self) [].

Definition get_balances_from_manual_file (self : Portfolio) : Run (list BalanceRecord) :=
  match manual self with
  | None => ret []
  | Some m => invoke (GetBalances (name m)) (get_balances m)
  end.

Definition extract_additional_coin_info (self : Portfolio) (symbols : list string)
  : Run (dict (dict cell)) :=
  invoke (GetCoinInfo symbols) (coin_market_cap self symbols).

(** The [pd.Series] with index [["source", "balance"]] that
    [combine_balances] returns. *)
Record Combined : Type :=
  { combined_source : string;
    combined_balance : float }.

Definition combine_balances (py : process) (row : list BalanceRecord) : Combined :=
  {| combined_source := Python.join "|" (set_iter py (map source row));
     combined_balance := Pandas.sum (map balance row) |}.

Definition get_rename_map : dict string :=
  [ ("source", "Exchange(s) / Network(s)");
    ("symbol", "Symbol");
    ("name", "Full Name");
    ("rank", "Coin Rank");
    ("market_cap", "Market Cap");
    ("max_supply", "Max Supply");
    ("total_supply", "Total Supply");
    ("circulating_supply", "Circulating Supply");
    ("balance", "Balance");
    ("price_usd", "Price (USD)");
    ("total_value_usd", "Total Value (USD)");
    ("portfolio_percentage", "Portfolio Percentage") ].

(** The rows of one group, in the order of [balances_pdf]. *)
Definition group (balances_pdf : list BalanceRecord) (key : string) : list BalanceRecord :=
  filter (fun r => String.eqb (symbol r) key) balances_pdf.

(** [balances_pdf.groupby(by=["symbol"]).apply(self.combine_balances)]:
    a row for each symbol, in sorted order, with the two entries of the
    series [combine_balances] returns for its group.  Of a frame without
    rows pandas calls nothing and hands back its three columns, empty. *)
Definition groupby_symbol_apply (py : process) (balances_pdf : list BalanceRecord)
  : DataFrame :=
  match balances_pdf with
  | [] =>
      {| index := LabelIndex (Some "symbol") [];
         columns := [("source", []); ("symbol", []); ("balance", [])] |}
  | _ :: _ =>
      let symbols := group_keys (map symbol balances_pdf) in
      let applied := map (fun k => combine_balances py (group balances_pdf k)) symbols in
      {| index := LabelIndex (Some "symbol") symbols;
         columns :=
           [("source", map (fun s => Str (combined_source s)) applied);
            ("balance", map (fun s => Num (combined_balance s)) applied)] |}
  end.

(** [df.index.tolist()] of a frame indexed by symbol. *)
Definition index_tolist (df : DataFrame) : list string :=
  match index df with
  | LabelIndex _ ks => ks
  | RangeIndex _ => []
  end.

(** Lines 185-188 of [report]: the balances of every adapter, exchanges
    first, then networks, then the manual file. *)
Definition all_balances (self : Portfolio) : Run (list BalanceRecord) :=
  (exchange_balances <- get_balances_from_exchanges self ;;
   network_balances <- get_balances_from_networks self ;;
   manual_balances <- get_balances_from_manual_file self ;;
   ret (exchange_balances ++ network_balances ++ manual_balances))%run.

(** The kind of the column [price_usd] of the coin information.  The
    join keeps it, and the product with the [float64] balances is a column
    of the same kind. *)
Definition price_dtype (coin_info_pdf : DataFrame) : dtype :=
  match get (columns coin_info_pdf) "price_usd" with
  | Some col => dtype_of col
  | None => Float64
  end.

(** Lines 202-214 of [report]: the join with the coin information, the
    two derived columns, the index turned into a column, the renaming. *)
Definition report_frame (groupped_balances_pdf : DataFrame)
           (coin_info_dict : dict (dict cell)) : result DataFrame :=
  let coin_info_pdf := set_index_name (from_dict_index coin_info_dict) "symbol" in
  try report_pdf <- Pandas.join groupped_balances_pdf coin_info_pdf ;;
  try balance_col <- getitem report_pdf "balance" ;;
  try price_col <- getitem report_pdf "price_usd" ;;
  try balances <- to_numeric balance_col ;;
  try values <- multiply balances price_col ;;
  let dt := price_dtype coin_info_pdf in
  let report_pdf := setitem report_pdf "total_value_usd" (map Num values) in
  try value_col <- getitem report_pdf "total_value_usd" ;;
  try x <- to_numeric value_col ;;
  try percentage <- truediv dt x (column_sum dt x) ;;
  let report_pdf := setitem report_pdf "portfolio_percentage" (map Num percentage) in
  try report_pdf <- reset_index report_pdf ;;
  Ok (rename report_pdf get_rename_map).

(** [report], up to the frame it hands to [write_csv_report] or
    [write_excel_report]. *)
Definition report (py : process) (self : Portfolio) : Run DataFrame :=
  (balances <- all_balances self ;;
   let groupped_balances_pdf := groupby_symbol_apply py balances in
   let symbols := index_tolist groupped_balances_pdf in
   coin_info_dict <- extract_additional_coin_info self symbols ;;
   lift (report_frame groupped_balances_pdf coin_info_dict))%run.

(** The label a column carries after the renaming. *)
Definition renamed (c : string) : string :=
  match get get_rename_map c with
  | Some new => new
  | None => c
  end.

End Portfolio.

Export Portfolio.


(** ** The inputs of the examples *)

Module Scenario.

Definition holding (s y : string) (b : float) : BalanceRecord :=
  {| source := s; symbol := y; balance := b |}.

Definition returning (n : string) (held : list BalanceRecord) : Adapter :=
  {| name := n; get_balances := Ok held |}.

Definition failing (n : string) : Adapter :=
  {| name := n; get_balances := Raise (Failure n) |}.

(** An entry of the CoinMarketCap client, with the seven fields the
    docstring of [extract_additional_coin_info] lists. *)
Definition coin (full_name : string) (price rank : float) : dict cell :=
  [ ("name", Str full_name); ("price_usd", Num price); ("rank", Num rank);
    ("market_cap", NaN); ("max_supply", NaN); ("total_supply", NaN);
    ("circulating_supply", NaN) ].

Definition market : dict (dict cell) :=
  [ ("BTC", coin "Bitcoin" 50000 1); ("ETH", coin "Ethereum" 3000 2) ].

(** A client that knows [market] and answers for the requested symbols
    only. *)
Definition client (symbols : list string) : result (dict (dict cell)) :=
  Ok (filter (fun entry => mem (fst entry) symbols) market).

Definition portfolio (ex : list Adapter) (m : option Adapter) : Portfolio :=
  {| exchanges := ex; networks := []; manual := m;
     coin_market_cap := client; raw_format := false |}.

(** BTC on two exchanges, ETH in the manual file. *)
Definition two_exchanges : Portfolio :=
  portfolio [ returning "binance" [holding "binance" "BTC" 1];
              returning "kraken" [holding "kraken" "BTC" 0.5] ]
            (Some (returning "manual" [holding "manual" "ETH" 2])).

(** BTC, and a coin the client does not know. *)
Definition unknown_coin : Portfolio :=
  portfolio [ returning "binance" [holding "binance" "BTC" 1];
              returning "wallet1" [holding "wallet1" "XYZ" 10] ] None.

(** Only a coin the client does not know. *)
Definition only_unknown : Portfolio :=
  portfolio [ returning "wallet1" [holding "wallet1" "XYZ" 10] ] None.

(** No adapter holds anything. *)
Definition nothing : Portfolio :=
  portfolio [ returning "binance" []; returning "kraken" [] ] None.

(** An account that lists BTC with a balance of zero. *)
Definition zero_balance : Portfolio :=
  portfolio [ returning "binance" [holding "binance" "BTC" 0] ] None.

(** The first exchange fails, the second would answer. *)
Definition first_fails : Portfolio :=
  portfolio [ failing "binance";
              returning "kraken" [holding "kraken" "BTC" 0.5] ] None.

(** The second of three exchanges fails. *)
Definition second_fails : Portfolio :=
  portfolio [ returning "binance" [holding "binance" "BTC" 1];
              failing "kraken";
              returning "coinbase" [holding "coinbase" "ETH" 2] ] None.

(** 0.1, 0.2 and 0.3 as binary64. *)
Definition tenth : float := 0x1.999999999999ap-4.
Definition fifth : float := 0x1.999999999999ap-3.
Definition three_tenths : float := 0x1.3333333333333p-2.

Definition ascending : list BalanceRecord :=
  [ holding "a" "BTC" tenth; holding "b" "BTC" fifth; holding "c" "BTC" three_tenths ].

Definition descending : list BalanceRecord :=
  [ holding "c" "BTC" three_tenths; holding "b" "BTC" fifth; holding "a" "BTC" tenth ].

(** One symbol fed from sources A, A and B. *)
Definition fed_twice : list BalanceRecord :=
  [ holding "A" "SOL" 1; holding "A" "SOL" 2; holding "B" "SOL" 4 ].

End Scenario.

(** ** Vocabulary of the statements *)

(** The order of the keys of a [groupby]. *)
Definition key_lt (a b : string) : Prop := String.compare a b = Lt.

(** The call the collectors make on an adapter. *)
Definition invocation (a : Adapter) : call := GetBalances (name a).

(** The adapter returns, with or without balances, rather than raising. *)
Definition answers (a : Adapter) : Prop :=
  exists found, get_balances a = Ok found.

(** What an adapter contributes to the balances. *)
Definition held (a : Adapter) : list BalanceRecord :=
  match get_balances a with
  | Ok found => found
  | Raise _ => []
  end.

(** The symbols of the grouped frame, and the series [combine_balances]
    returned for each. *)
Definition symbols_of (balances : list BalanceRecord) : list string :=
  group_keys (map symbol balances).

Definition applied (py : process) (balances : list BalanceRecord) : list Combined :=
  map (fun k => combine_balances py (group balances k)) (symbols_of balances).

(** The columns of the coin information as the join brings them to the
    rows of the grouped frame. *)
Definition coin_columns_of (rows : list label) (coin_info_dict : dict (dict cell))
  : list (string * list cell) :=
  map (fun c => (fst c, reindex rows (map Key (keys coin_info_dict)) (snd c)))
      (columns (from_dict_index coin_info_dict)).

Definition coin_columns (symbols : list string) (coin_info_dict : dict (dict cell))
  : list (string * list cell) :=
  coin_columns_of (map Key symbols) coin_info_dict.

(** The columns after the join, extended by the two derived columns for
    the total values [x] and the percentages [p]. *)
Definition with_values (cols : list (string * list cell)) (x p : list float)
  : list (string * list cell) :=
  set_column (set_column cols "total_value_usd" (map Num x))
             "portfolio_percentage" (map Num p).

(** The adapters of a portfolio in the order [report] calls them, and the
    balances they hold together. *)
Definition adapters_of (self : Portfolio) : list Adapter :=
  exchanges self ++ networks self
  ++ match manual self with Some m => [m] | None => [] end.

Definition holdings (self : Portfolio) : list BalanceRecord :=
  flat_map held (adapters_of self).

(** The labels of the columns the report makes itself. *)
Definition own_labels : list string :=
  [ "Symbol"; "Exchange(s) / Network(s)"; "Balance";
    "Total Value (USD)"; "Portfolio Percentage" ].

(** The number a cell stands for in a product: a string or [None] that
    does not stop the product leaves NaN. *)
Definition number_of (c : cell) : float :=
  match c with
  | Num x => x
  | _ => nan
  end.

(** The entry gives [price_usd] as a number other than NaN. *)
Definition priced (entry : dict cell) : bool :=
  match get entry "price_usd" with
  | Some (Num x) => negb (PrimFloat.is_nan x)
  | _ => false
  end.

(** The entry gives [price_usd] as a string. *)
Definition quoted (entry : dict cell) : bool :=
  match get entry "price_usd" with
  | Some (Str _) => true
  | _ => false
  end.

(** Coin information the report can be computed from: some entry gives
    [price_usd] as a number other than NaN, no entry gives it as a string,
    and no field carries the name or the label of a column the report
    makes itself. *)
Definition usable (coin_info_dict : dict (dict cell)) : bool :=
  existsb (fun entry => priced (snd entry)) coin_info_dict
  && forallb (fun entry => negb (quoted (snd entry))) coin_info_dict
  && forallb (fun f => negb (mem (renamed f) own_labels)) (field_names coin_info_dict).

(** What [combine_balances] returns for the group of a symbol. *)
Definition source_label (py : process) (balances : list BalanceRecord) (k : string)
  : string :=
  combined_source (combine_balances py (group balances k)).

Definition aggregated_balance (balances : list BalanceRecord) (k : string) : float :=
  Pandas.sum (map balance (group balances k)).

(** The cell a column keeps of a value: in a column of numbers, [None]
    becomes NaN. *)
Definition stored (col : list cell) (v : cell) : cell :=
  if existsb is_str col then v
  else if existsb is_num col then none_to_nan v
  else v.

(** The cell of the coin information for a symbol and a field: the value
    of the client as its column keeps it, NaN when the client has no entry
    for the symbol or the entry lacks the field. *)
Definition coin_cell (coin_info_dict : dict (dict cell)) (k f : string) : cell :=
  match get coin_info_dict k with
  | Some entry => match get entry f with
                  | Some v => stored (field_values coin_info_dict f) v
                  | None => NaN
                  end
  | None => NaN
  end.

Definition price_of (coin_info_dict : dict (dict cell)) (k : string) : float :=
  number_of (coin_cell coin_info_dict k "price_usd").

Definition total_value (balances : list BalanceRecord) (coin_info_dict : dict (dict cell))
           (k : string) : float :=
  PrimFloat.mul (aggregated_balance balances k) (price_of coin_info_dict k).

(** The report in closed form, column by column over the sorted symbols. *)
Definition tabulated (py : process) (balances : list BalanceRecord)
           (coin_info_dict : dict (dict cell)) : DataFrame :=
  let ks := symbols_of balances in
  let x := map (total_value balances coin_info_dict) ks in
  {| index := RangeIndex (List.length ks);
     columns :=
       ("Symbol", map Str ks)
       :: ("Exchange(s) / Network(s)", map (fun k => Str (source_label py balances k)) ks)
       :: ("Balance", map (fun k => Num (aggregated_balance balances k)) ks)
       :: map (fun f => (renamed f, map (fun k => coin_cell coin_info_dict k f) ks))
              (field_names coin_info_dict)
       ++ [ ("Total Value (USD)", map Num x);
            ("Portfolio Percentage", map Num (div x (Pandas.sum x))) ] |}.

(** The fields the docstring of [extract_additional_coin_info] lists. *)
Definition coin_info_fields : list string :=
  [ "name"; "price_usd"; "rank"; "market_cap"; "max_supply"; "total_supply";
    "circulating_supply" ].

(** Two cells that join the same source names, in whatever order. *)
Definition same_sources (a b : cell) : Prop :=
  exists names_a names_b,
    a = Str (Python.join "|" names_a) /\
    b = Str (Python.join "|" names_b) /\
    Permutation names_a names_b.

(** Two reports with the same rows, columns and cells, except that a cell
    of the sources may join its names in another order. *)
Definition same_report (a b : DataFrame) : Prop :=
  index a = index b /\
  column_names a = column_names b /\
  (forall c, c <> "Exchange(s) / Network(s)" -> getitem a c = getitem b c) /\
  (exists sources_a sources_b,
      getitem a "Exchange(s) / Network(s)" = Ok sources_a /\
      getitem b "Exchange(s) / Network(s)" = Ok sources_b /\
      Forall2 same_sources sources_a sources_b).

(** [x == 0] on floats: true of both zeros. *)
Definition is_zero (x : float) : bool := PrimFloat.eqb x 0%float.

(** ** The file a report is written to *)

Module Writer.

(** What [datetime.now()] returns, to the second. *)
Record datetime : Type :=
  { year : nat; month : nat; day : nat;
    hour : nat; minute : nat; second : nat }.

(** A date and time of day with a year of four digits. *)
Definition is_datetime (t : datetime) : bool :=
  Nat.leb 1000 (year t) && Nat.ltb (year t) (100 * 100)
  && Nat.leb 1 (month t) && Nat.leb (month t) 12
  && Nat.leb 1 (day t) && Nat.leb (day t) 31
  && Nat.ltb (hour t) 24 && Nat.ltb (minute t) 60 && Nat.ltb (second t) 60.

Definition digit (d : nat) : ascii := ascii_of_nat (48 + d).

Definition two_digits (n : nat) : string :=
  String (digit (n / 10)) (String (digit (n mod 10)) EmptyString).

Definition four_digits (n : nat) : string :=
  two_digits (n / 100) ++ two_digits (n mod 100).

(** [t.strftime("%Y%m%d_%H%M%S")] *)
Definition strftime (t : datetime) : string :=
  four_digits (year t) ++ two_digits (month t) ++ two_digits (day t) ++ "_"
  ++ two_digits (hour t) ++ two_digits (minute t) ++ two_digits (second t).

(** [output_file_name] in [write_csv_report] and in [write_excel_report]. *)
Definition csv_file_name (now : datetime) : string :=
  "crypto_portfolio_report_" ++ strftime now ++ ".csv".

Definition excel_file_name (now : datetime) : string :=
  "crypto_portfolio_report_" ++ strftime now ++ ".xlsx".

(** [path / output_file_name] *)
Definition joinpath (path name : string) : string := path ++ "/" ++ name.

(** Lines 217-222 of [report]: the file the frame goes to, a CSV file
    when [raw_format] is set and a spreadsheet otherwise, for the time
    [now] the writer reads from the clock. *)
Definition output_path (self : Portfolio) (now : datetime) : string :=
  let output_dir := "reports/portfolio" in
  if raw_format self
  then joinpath output_dir (csv_file_name now)
  else joinpath output_dir (excel_file_name now).

End Writer.

Export Writer.

(** ** Further vocabulary *)

(** All records of a group come from the one source [s]. *)
Definition single_source (row : list BalanceRecord) (s : string) : Prop :=
  row <> [] /\ forall r, In r row -> source r = s.

(** The entry gives [price_usd] as [None]. *)
Definition unpriced (entry : dict cell) : bool :=
  match get entry "price_usd" with
  | Some PyNone => true
  | _ => false
  end.

(** The prices of the client make an [object] column: some entry gives
    [price_usd] as a string, or every entry gives it as [None]. *)
Definition object_prices (coin_info_dict : dict (dict cell)) : bool :=
  existsb (fun entry => quoted (snd entry)) coin_info_dict
  || forallb (fun entry => unpriced (snd entry)) coin_info_dict.


(** A network adapter fails after the exchanges answered. *)
Definition network_fails : Portfolio :=
  {| exchanges := [ Scenario.returning "binance" [Scenario.holding "binance" "BTC" 1] ];
     networks := [ Scenario.failing "solana";
                   Scenario.returning "ethereum" [Scenario.holding "ethereum" "ETH" 2] ];
     manual := Some (Scenario.returning "manual" [Scenario.holding "manual" "ETH" 2]);
     coin_market_cap := Scenario.client;
     raw_format := false |}.

(** The adapters of [Scenario.two_exchanges], configured in another order
    and with their records interleaved. *)
Definition two_exchanges_reordered : list BalanceRecord :=
  [ Scenario.holding "manual" "ETH" 2;
    Scenario.holding "kraken" "BTC" 0.5;
    Scenario.holding "binance" "BTC" 1 ].

(** SOL held in two wallets of one exchange. *)
Definition spot_and_earn : list BalanceRecord :=
  [ Scenario.holding "binance" "SOL" 1; Scenario.holding "binance" "SOL" 2 ].

(** BTC held, and as much ETH owed as the BTC is worth. *)
Definition hedged : Portfolio :=
  Scenario.portfolio
    [ Scenario.returning "binance" [Scenario.holding "binance" "BTC" 3];
      Scenario.returning "kraken" [Scenario.holding "kraken" "ETH" (-50)] ] None.

(** A client that knows three coins, and a portfolio that holds them. *)
Definition three_prices : dict (dict cell) :=
  [ ("BTC", Scenario.coin "Bitcoin" 50000 1); ("ETH", Scenario.coin "Ethereum" 3000 2);
    ("SOL", Scenario.coin "Solana" 100 5) ].

Definition three_coins : Portfolio :=
  {| exchanges := [ Scenario.returning "binance"
                      [ Scenario.holding "binance" "BTC" 1;
                        Scenario.holding "binance" "ETH" 2;
                        Scenario.holding "binance" "SOL" 20 ] ];
     networks := [];
     manual := None;
     coin_market_cap := fun _ => Ok three_prices;
     raw_format := false |}.

(** A client that gives the price of a coin nobody holds as a string. *)
Definition quoted_elsewhere : dict (dict cell) :=
  [ ("BTC", [("name", Str "Bitcoin"); ("price_usd", Num 50000)]);
    ("ETH", [("name", Str "Ethereum"); ("price_usd", Str "3000")]) ].

(** A client that gives no price at all: every [price_usd] is [None]. *)
Definition no_prices : dict (dict cell) :=
  [ ("BTC", [("name", Str "Bitcoin"); ("price_usd", PyNone)]) ].



Definition noon : datetime :=
  {| year := 2024; month := 3; day := 9; hour := 12; minute := 0; second := 5 |}.

(** * Properties *)

(** ** Results and dicts *)

Lemma mem_In (c : string) (cs : list string) : mem c cs = true <-> In c cs.
Proof.
  unfold mem. rewrite existsb_exists. split.
  - intros [x [Hx E]]. apply String.eqb_eq in E. now subst.
  - intros H. exists c. split; [assumption | apply String.eqb_refl].
Qed.

Lemma mem_not_In (c : string) (cs : list string) : mem c cs = false <-> ~ In c cs.
Proof.
  rewrite <- mem_In. destruct (mem c cs); split; congruence.
Qed.

Lemma get_None {V} (d : dict V) (k : string) :
  get d k = None <-> ~ In k (keys d).
Proof.
  induction d as [|[k' v] d IH]; simpl.
  - tauto.
  - destruct (String.eqb_spec k' k) as [->|Hne].
    + split; [discriminate | tauto].
    + rewrite IH. tauto.
Qed.

Lemma get_In {V} (d : dict V) (k : string) (v : V) :
  get d k = Some v -> In (k, v) d.
Proof.
  induction d as [|[k' v'] d IH]; simpl; [discriminate|].
  destruct (String.eqb_spec k' k) as [->|Hne].
  - intros [= ->]. now left.
  - intros H. right. auto.
Qed.

Lemma get_app {V} (d1 d2 : dict V) (k : string) :
  get (d1 ++ d2) k = match get d1 k with Some v => Some v | None => get d2 k end.
Proof.
  induction d1 as [|[k' v] d1 IH]; simpl; [reflexivity|].
  now destruct (String.eqb k' k).
Qed.

(** ** Summation *)

Lemma pairwise_sum_unfold (fuel : nat) (a : list float) :
  pairwise_sum fuel a
  = if Nat.ltb (List.length a) 8 then add_to 0%float a
    else if Nat.leb (List.length a) 128 then unrolled_sum a
    else match fuel with
         | 0 => unrolled_sum a
         | S fuel' =>
             PrimFloat.add
               (pairwise_sum fuel' (firstn (List.length a / 2 - (List.length a / 2) mod 8) a))
               (pairwise_sum fuel' (skipn (List.length a / 2 - (List.length a / 2) mod 8) a))
         end.
Proof. destruct fuel; reflexivity. Qed.

Lemma split_point (n : nat) :
  128 < n -> 0 < n / 2 - (n / 2) mod 8 < n.
Proof.
  intros H.
  pose proof (Nat.mod_upper_bound (n / 2) 8 ltac:(lia)).
  pose proof (Nat.Div0.div_lt_upper_bound n 2 n ltac:(lia)).
  assert (64 <= n / 2) by (apply Nat.div_le_lower_bound; lia).
  lia.
Qed.

(** The splitting never runs out of fuel when the fuel is the length of
    the array: any two amounts of fuel that are at least the length give
    the same sum. *)
Lemma pairwise_sum_fuel (fuel1 : nat) :
  forall (a : list float) (fuel2 : nat),
    List.length a <= fuel1 -> List.length a <= fuel2 ->
    pairwise_sum fuel1 a = pairwise_sum fuel2 a.
Proof.
  induction fuel1 as [|fuel1 IH]; intros a fuel2 H1 H2;
    rewrite (pairwise_sum_unfold _ a), (pairwise_sum_unfold fuel2 a).
  - assert (E : Nat.ltb (List.length a) 8 = true) by (apply Nat.ltb_lt; lia).
    now rewrite E.
  - destruct (Nat.ltb (List.length a) 8); [reflexivity|].
    destruct (Nat.leb (List.length a) 128) eqn:E; [reflexivity|].
    apply Nat.leb_gt in E. pose proof (split_point _ E) as Hs.
    destruct fuel2 as [|fuel2]; [lia|].
    f_equal; apply IH; rewrite ?length_firstn, ?length_skipn; lia.
Qed.

(** A column of fewer than eight numbers is added up from left to right. *)
Lemma sum_short (xs : list float) :
  List.length xs < 8 ->
  Pandas.sum xs
  = PrimFloat.add 0%float
      (fold_left PrimFloat.add
                 (map (fun x => if PrimFloat.is_nan x then 0%float else x) xs) 0%float).
Proof.
  intros H. unfold Pandas.sum. rewrite pairwise_sum_unfold, length_map.
  apply Nat.ltb_lt in H. now rewrite H.
Qed.

(** Two hundred ones are split into 96 and 104 and add up to 200. *)
Example sum_of_two_hundred : Pandas.sum (repeat 1%float 200) = 200%float.
Proof. vm_compute. reflexivity. Qed.

Lemma nan_as_zero_twice (xs : list float) :
  map (fun x => if PrimFloat.is_nan x then 0%float else x)
      (map (fun x => if PrimFloat.is_nan x then 0%float else x) xs)
  = map (fun x => if PrimFloat.is_nan x then 0%float else x) xs.
Proof.
  rewrite map_map. apply map_ext. intros x.
  destruct (PrimFloat.is_nan x) eqn:E; [reflexivity | now rewrite E].
Qed.

(** A missing value enters a sum as 0 does. *)
Lemma sum_nan_as_zero (xs : list float) :
  Pandas.sum xs
  = Pandas.sum (map (fun x => if PrimFloat.is_nan x then 0%float else x) xs).
Proof.
  unfold Pandas.sum. cbv zeta. now rewrite nan_as_zero_twice, !length_map.
Qed.

Lemma nth_add_lanes (r : list float) :
  forall (block : list float) (j : nat),
    j < List.length r -> j < List.length block ->
    nth j (add_lanes r block) 0%float
    = PrimFloat.add (nth j r 0%float) (nth j block 0%float).
Proof.
  induction r as [|x r IH]; intros [|y block] j Hr Hb; simpl in *; try lia.
  destruct j as [|j]; [reflexivity | apply IH; lia].
Qed.

Lemma length_add_lanes (r : list float) :
  forall block : list float,
    List.length (add_lanes r block) = Nat.min (List.length r) (List.length block).
Proof.
  induction r as [|x r IH]; intros [|y block]; simpl; auto.
Qed.

Lemma nth_after_skipn {A} (n : nat) :
  forall (l : list A) (i : nat) (d : A), nth i (skipn n l) d = nth (n + i) l d.
Proof.
  induction n as [|n IH]; intros [|a l] i d; simpl; auto. now destruct i.
Qed.

Lemma nth_before_firstn {A} (n : nat) :
  forall (l : list A) (i : nat) (d : A), i < n -> nth i (firstn n l) d = nth i l d.
Proof.
  induction n as [|n IH]; intros [|a l] i d Hi; simpl; try lia; auto.
  destruct i as [|i]; [reflexivity | apply IH; lia].
Qed.

Lemma eight_lanes (r : list float) :
  List.length r = 8 -> r = map (fun j => nth j r 0%float) (seq 0 8).
Proof.
  intros H. do 9 (destruct r as [|? r]; try discriminate). reflexivity.
Qed.

(** The eight lanes after [count] blocks: lane [j] holds the members
    [j], [8 + j], [16 + j], ... added one after the other. *)
Lemma accumulate_blocks_lanes (count : nat) :
  forall r rest : list float,
    List.length r = 8 -> 8 * count <= List.length rest ->
    accumulate_blocks count r rest
    = (map (fun j => fold_left PrimFloat.add
                       (map (fun blk => nth (8 * blk + j) rest 0%float) (seq 0 count))
                       (nth j r 0%float))
           (seq 0 8),
       skipn (8 * count) rest).
Proof.
  induction count as [|count IH]; intros r rest Hr Hrest.
  - cbn [accumulate_blocks]. f_equal. exact (eight_lanes r Hr).
  - cbn [accumulate_blocks]. rewrite IH.
    + f_equal.
      * apply map_ext_in. intros j Hj. apply in_seq in Hj.
        rewrite nth_add_lanes, nth_before_firstn by (rewrite ?length_firstn; lia).
        cbn [seq map fold_left]. rewrite <- (seq_shift count 0), map_map.
        rewrite Nat.mul_0_r. cbn [Nat.add]. f_equal.
        apply map_ext. intros blk. rewrite nth_after_skipn. f_equal. lia.
      * rewrite skipn_skipn. f_equal. lia.
    + rewrite length_add_lanes, length_firstn. lia.
    + rewrite length_skipn. lia.
Qed.

Lemma unrolled_sum_lanes (a : list float) :
  8 <= List.length a ->
  unrolled_sum a
  = let r j :=
      fold_left PrimFloat.add
                (map (fun blk => nth (8 * blk + j) a 0%float)
                     (seq 1 (List.length a / 8 - 1)))
                (nth j a 0%float) in
    fold_left PrimFloat.add (skipn (8 * (List.length a / 8)) a)
      (PrimFloat.add
         (PrimFloat.add (PrimFloat.add (r 0) (r 1)) (PrimFloat.add (r 2) (r 3)))
         (PrimFloat.add (PrimFloat.add (r 4) (r 5)) (PrimFloat.add (r 6) (r 7)))).
Proof.
  intros H. unfold unrolled_sum.
  pose proof (Nat.Div0.mul_div_le (List.length a) 8) as Hle.
  assert (Hq : 1 <= List.length a / 8) by (apply Nat.div_le_lower_bound; lia).
  rewrite accumulate_blocks_lanes
    by (rewrite ?length_firstn, ?length_skipn; lia).
  rewrite skipn_skipn.
  replace (8 * (List.length a / 8 - 1) + 8) with (8 * (List.length a / 8)) by lia.
  assert (Hlane : forall j, j < 8 ->
             fold_left PrimFloat.add
               (map (fun blk => nth (8 * blk + j) (skipn 8 a) 0%float)
                    (seq 0 (List.length a / 8 - 1)))
               (nth j (firstn 8 a) 0%float)
             = fold_left PrimFloat.add
                 (map (fun blk => nth (8 * blk + j) a 0%float)
                      (seq 1 (List.length a / 8 - 1)))
                 (nth j a 0%float)).
  { intros j Hj. rewrite nth_before_firstn by assumption.
    rewrite <- (seq_shift (List.length a / 8 - 1) 0), map_map. f_equal.
    apply map_ext. intros blk. rewrite nth_after_skipn. f_equal. lia. }
  cbn [seq map combine_lanes]. rewrite !Hlane by lia. reflexivity.
Qed.

(** A column of eight to 128 numbers is added in eight lanes; the lanes
    are combined in pairs and what is left of the column is added one
    after the other. *)
Lemma sum_lanes (xs : list float) :
  8 <= List.length xs <= 128 ->
  Pandas.sum xs
  = let v := map (fun x => if PrimFloat.is_nan x then 0%float else x) xs in
    let r j :=
      fold_left PrimFloat.add
                (map (fun blk => nth (8 * blk + j) v 0%float)
                     (seq 1 (List.length v / 8 - 1)))
                (nth j v 0%float) in
    PrimFloat.add 0%float
      (fold_left PrimFloat.add (skipn (8 * (List.length v / 8)) v)
         (PrimFloat.add
            (PrimFloat.add (PrimFloat.add (r 0) (r 1)) (PrimFloat.add (r 2) (r 3)))
            (PrimFloat.add (PrimFloat.add (r 4) (r 5)) (PrimFloat.add (r 6) (r 7))))).
Proof.
  intros [Hlo Hhi]. unfold Pandas.sum. cbv zeta.
  rewrite pairwise_sum_unfold, length_map.
  assert (E1 : Nat.ltb (List.length xs) 8 = false) by (apply Nat.ltb_ge; lia).
  assert (E2 : Nat.leb (List.length xs) 128 = true) by (apply Nat.leb_le; lia).
  rewrite E1, E2, unrolled_sum_lanes by (rewrite length_map; lia).
  cbv zeta. now rewrite !length_map.
Qed.

(** ** The keys of a [groupby] *)

Lemma key_lt_trans (a b c : string) : key_lt a b -> key_lt b c -> key_lt a c.
Proof.
  unfold key_lt. intros H1 H2.
  apply String_as_OT.cmp_lt in H1. apply String_as_OT.cmp_lt in H2.
  apply String_as_OT.cmp_lt. eapply String_as_OT.lt_trans; eassumption.
Qed.

Lemma key_lt_irrefl (a : string) : ~ key_lt a a.
Proof.
  unfold key_lt. intros H.
  assert (E : String.compare a a = Eq) by now apply String_as_OT.cmp_eq.
  congruence.
Qed.

Lemma key_gt_lt (a b : string) : String.compare a b = Gt -> key_lt b a.
Proof.
  unfold key_lt. intros H. rewrite String.compare_antisym, H. reflexivity.
Qed.

Lemma insert_key_In (k x : string) (ks : list string) :
  In x (insert_key k ks) <-> x = k \/ In x ks.
Proof.
  induction ks as [|k' ks IH]; simpl.
  - intuition.
  - destruct (String.compare k k') eqn:E; simpl.
    + apply String.compare_eq_iff in E. subst. intuition.
    + intuition.
    + rewrite IH. intuition.
Qed.

Lemma insert_key_sorted (k : string) (ks : list string) :
  StronglySorted key_lt ks -> StronglySorted key_lt (insert_key k ks).
Proof.
  induction 1 as [|k' ks Hs IH Hall]; simpl.
  - repeat constructor.
  - destruct (String.compare k k') eqn:E.
    + now constructor.
    + constructor; [now constructor|].
      constructor; [exact E|].
      eapply Forall_impl; [|exact Hall].
      intros c Hc. eapply key_lt_trans; eassumption.
    + constructor; [assumption|].
      apply Forall_forall. intros x Hx.
      apply insert_key_In in Hx. destruct Hx as [->|Hx].
      * now apply key_gt_lt.
      * rewrite Forall_forall in Hall. auto.
Qed.

Lemma group_keys_sorted (col : list string) : StronglySorted key_lt (group_keys col).
Proof.
  induction col; simpl; [constructor | now apply insert_key_sorted].
Qed.

Lemma group_keys_In (col : list string) (x : string) :
  In x (group_keys col) <-> In x col.
Proof.
  induction col as [|k col IH]; simpl; [tauto|].
  rewrite insert_key_In, IH. intuition.
Qed.

Lemma sorted_NoDup (ks : list string) : StronglySorted key_lt ks -> NoDup ks.
Proof.
  induction 1 as [|k ks Hs IH Hall]; constructor; [|assumption].
  intros Hin. rewrite Forall_forall in Hall.
  exact (key_lt_irrefl k (Hall k Hin)).
Qed.

Lemma group_keys_NoDup (col : list string) : NoDup (group_keys col).
Proof. apply sorted_NoDup, group_keys_sorted. Qed.

(** ** Iteration of sets *)

Lemma forward_iterates_sets : iterates_sets forward.
Proof.
  intros xs. simpl. split; [apply NoDup_nodup | intros x; apply nodup_In].
Qed.

Lemma opposite_iterates_sets (py : process) :
  iterates_sets py -> iterates_sets (opposite py).
Proof.
  intros H xs. destruct (H xs) as [Hnd Hin]. simpl. split.
  - now apply NoDup_rev.
  - intros x. rewrite <- in_rev. apply Hin.
Qed.

Lemma backward_iterates_sets : iterates_sets backward.
Proof. exact (opposite_iterates_sets forward forward_iterates_sets). Qed.


(** ** The collectors *)

Lemma collect_all_answer (adapters : list Adapter) :
  Forall answers adapters ->
  forall balances log,
    collect adapters balances log =
    (log ++ map invocation adapters, Ok (balances ++ flat_map held adapters)).
Proof.
  induction 1 as [|a rest [found Ha] _ IH]; intros balances log; simpl.
  - unfold ret. now rewrite !app_nil_r.
  - unfold bindR, invoke, held. rewrite Ha.
    destruct found as [|r found].
    + rewrite IH. unfold invocation at 2. now rewrite <- app_assoc.
    + rewrite IH. unfold invocation at 2. now rewrite <- !app_assoc.
Qed.

Lemma collect_until_failure (before : list Adapter) :
  Forall answers before ->
  forall failed after e balances log,
    get_balances failed = Raise e ->
    collect (before ++ failed :: after) balances log =
    (log ++ map invocation before ++ [invocation failed], Raise e).
Proof.
  induction 1 as [|a rest [found Ha] _ IH]; intros failed after e balances log Hf; simpl.
  - unfold bindR, invoke. now rewrite Hf.
  - unfold bindR, invoke. rewrite Ha.
    destruct found as [|r found]; rewrite (IH _ _ _ _ _ Hf);
      unfold invocation at 2; now rewrite <- app_assoc.
Qed.

(** ** The grouped frame *)

Lemma groupby_nonempty (py : process) (balances : list BalanceRecord) :
  balances <> [] ->
  groupby_symbol_apply py balances =
  {| index := LabelIndex (Some "symbol") (symbols_of balances);
     columns :=
       [("source", map (fun s => Str (combined_source s)) (applied py balances));
        ("balance", map (fun s => Num (combined_balance s)) (applied py balances))] |}.
Proof.
  destruct balances; [congruence | reflexivity].
Qed.

Lemma groupby_index (py : process) (balances : list BalanceRecord) :
  index_tolist (groupby_symbol_apply py balances) = symbols_of balances.
Proof. destruct balances; reflexivity. Qed.

Lemma symbols_of_In (balances : list BalanceRecord) (k : string) :
  In k (symbols_of balances) <-> In k (map symbol balances).
Proof. apply group_keys_In. Qed.

Lemma symbol_row (balances : list BalanceRecord) (k : string) :
  In k (map symbol balances) ->
  exists i, nth_error (symbols_of balances) i = Some k.
Proof.
  intros H. apply symbols_of_In in H. now apply In_nth_error.
Qed.

Lemma groupby_row (py : process) (balances : list BalanceRecord) (i : nat) (k : string) :
  nth_error (symbols_of balances) i = Some k ->
  iat (groupby_symbol_apply py balances) i "source"
  = Some (Str (combined_source (combine_balances py (group balances k)))) /\
  iat (groupby_symbol_apply py balances) i "balance"
  = Some (Num (combined_balance (combine_balances py (group balances k)))).
Proof.
  intros H.
  assert (Hne : balances <> []).
  { intros ->. destruct i; discriminate. }
  rewrite (groupby_nonempty py balances Hne). unfold iat, applied. simpl.
  rewrite !map_map, !nth_error_map, H. split; reflexivity.
Qed.

(** ** Frames *)

Lemma to_numeric_Num (xs : list float) : to_numeric (map Num xs) = Ok xs.
Proof.
  induction xs as [|x xs IH]; simpl; [reflexivity | now rewrite IH].
Qed.

Lemma get_replace_column c col cols :
  In c (map fst cols) -> get (replace_column c col cols) c = Some col.
Proof.
  induction cols as [|[c' col'] cols IH]; simpl; [tauto|].
  destruct (String.eqb_spec c' c) as [->|Hne]; simpl.
  - now rewrite String.eqb_refl.
  - intros [E|Hin]; [congruence|].
    apply String.eqb_neq in Hne. rewrite Hne. auto.
Qed.

Lemma get_set_column cols c col : get (set_column cols c col) c = Some col.
Proof.
  unfold set_column.
  destruct (mem c (map fst cols)) eqn:E.
  - apply mem_In in E. now rewrite get_replace_column.
  - apply mem_not_In in E. rewrite get_app.
    destruct (get cols c) eqn:G.
    + apply get_In in G. exfalso. apply E.
      change c with (fst (c, l)). now apply in_map.
    + simpl. now rewrite String.eqb_refl.
Qed.

Lemma getitem_setitem df c col : getitem (setitem df c col) c = Ok col.
Proof.
  unfold getitem, setitem. simpl. now rewrite get_set_column.
Qed.

Lemma set_column_cons c0 col0 cols c col :
  c0 <> c ->
  set_column ((c0, col0) :: cols) c col = (c0, col0) :: set_column cols c col.
Proof.
  intros Hne. unfold set_column, mem. simpl.
  apply not_eq_sym, String.eqb_neq in Hne. rewrite Hne. simpl.
  rewrite String.eqb_sym, Hne.
  now destruct (existsb (String.eqb c) (map fst cols)).
Qed.

Lemma from_dict_names d name :
  column_names (set_index_name (from_dict_index d) name) = field_names d.
Proof.
  unfold column_names, set_index_name, from_dict_index. simpl.
  rewrite map_map. simpl. apply map_id.
Qed.

Lemma join_coin_info ix cols d :
  Pandas.join {| index := ix; columns := cols |}
              (set_index_name (from_dict_index d) "symbol")
  = if existsb (fun c => mem c (field_names d)) (map fst cols)
    then Raise ValueError
    else Ok {| index := ix;
               columns := cols ++ coin_columns_of (labels_of ix) d |}.
Proof.
  unfold Pandas.join. rewrite from_dict_names. reflexivity.
Qed.

(** The report of a grouped frame with rows, step by step. *)
Lemma report_frame_eq ks S Bf d :
  report_frame {| index := LabelIndex (Some "symbol") ks;
                  columns := [("source", S); ("balance", map Num Bf)] |} d
  = let info := coin_columns ks d in
    if mem "source" (field_names d) || mem "balance" (field_names d)
    then Raise ValueError
    else match get info "price_usd" with
         | None => Raise (KeyError "price_usd")
         | Some price_col =>
             let dt := price_dtype (from_dict_index d) in
             try x <- multiply Bf price_col ;;
             try p <- truediv dt x (column_sum dt x) ;;
             let tail := with_values info x p in
             if mem "symbol" (map fst tail)
             then Raise ValueError
             else Ok {| index := RangeIndex (List.length ks);
                        columns :=
                          ("Symbol", map label_cell ks)
                          :: ("Exchange(s) / Network(s)", S)
                          :: ("Balance", map Num Bf)
                          :: map (fun c => (renamed (fst c), snd c)) tail |}
         end.
Proof.
  unfold report_frame. rewrite join_coin_info.
  cbn [map fst existsb labels_of]. rewrite orb_false_r.
  change (coin_columns_of (map Key ks) d) with (coin_columns ks d).
  change (price_dtype (set_index_name (from_dict_index d) "symbol"))
    with (price_dtype (from_dict_index d)).
  destruct (mem "source" (field_names d) || mem "balance" (field_names d));
    [reflexivity|].
  cbn [bind]. unfold getitem at 1 2. cbn [columns app get String.eqb Ascii.eqb Bool.eqb].
  destruct (get (coin_columns ks d) "price_usd") as [price_col|]; [|reflexivity].
  cbn [bind]. rewrite to_numeric_Num. cbn [bind].
  destruct (multiply Bf price_col) as [x|e]; [|reflexivity].
  cbn [bind]. rewrite getitem_setitem. cbn [bind]. rewrite to_numeric_Num. cbn [bind].
  destruct (truediv (price_dtype (from_dict_index d)) x
                    (column_sum (price_dtype (from_dict_index d)) x)) as [p|e];
    [|reflexivity].
  cbn [bind]. unfold reset_index, setitem. cbn [index columns].
  rewrite !(set_column_cons "source"), !(set_column_cons "balance") by discriminate.
  fold (with_values (coin_columns ks d) x p).
  unfold column_names. cbn [columns map fst].
  change (mem "symbol" ("source" :: "balance" :: ?l)) with (mem "symbol" l).
  destruct (mem "symbol" (map fst (with_values (coin_columns ks d) x p)));
    reflexivity.
Qed.

Lemma report_frame_empty py d :
  exists e, report_frame (groupby_symbol_apply py []) d = Raise e.
Proof.
  unfold report_frame, groupby_symbol_apply. rewrite join_coin_info.
  destruct (existsb _ _); [cbn [bind]; eauto|].
  cbn [bind]. unfold getitem at 1 2.
  cbn [columns app get String.eqb Ascii.eqb Bool.eqb].
  destruct (get _ "price_usd") as [price_col|]; [|simpl; eauto].
  cbn [bind to_numeric multiply map]. rewrite getitem_setitem.
  cbn [bind to_numeric].
  assert (Hp : forall dt d0, truediv dt [] d0 = Ok []) by (now intros []).
  rewrite Hp. cbn [bind map].
  unfold reset_index, setitem. cbn [index columns app].
  rewrite !(set_column_cons "source"), !(set_column_cons "symbol") by discriminate.
  unfold column_names. cbn [columns map fst].
  change (mem "symbol" ("source" :: "symbol" :: ?l)) with true.
  cbn [bind]. eauto.
Qed.

Lemma report_frame_no_info py balances :
  report_frame (groupby_symbol_apply py balances) [] = Raise (KeyError "price_usd").
Proof. destruct balances; reflexivity. Qed.

(** ** The run of a report *)

Lemma all_balances_answer (self : Portfolio) (log : list call) :
  Forall answers (adapters_of self) ->
  all_balances self log =
  (log ++ map invocation (adapters_of self), Ok (holdings self)).
Proof.
  unfold holdings, adapters_of. intros H.
  apply Forall_app in H. destruct H as [Hex H].
  apply Forall_app in H. destruct H as [Hnw Hm].
  unfold all_balances, bindR, get_balances_from_exchanges, get_balances_from_networks.
  rewrite (collect_all_answer _ Hex).
  rewrite (collect_all_answer _ Hnw).
  unfold get_balances_from_manual_file, ret.
  rewrite !flat_map_app, !map_app. cbn [app].
  destruct (manual self) as [m|]; cbn [flat_map map].
  - inversion Hm as [|? ? [found Hf] _]; subst.
    assert (Hm' : held m = found) by (unfold held; now rewrite Hf).
    unfold invoke. rewrite Hf, Hm'.
    now rewrite !app_nil_r, <- !app_assoc.
  - now rewrite !app_nil_r, <- !app_assoc.
Qed.

Lemma report_run py (self : Portfolio) (log log1 : list call) balances :
  all_balances self log = (log1, Ok balances) ->
  report py self log =
  (log1 ++ [GetCoinInfo (symbols_of balances)],
   try coin_info_dict <- coin_market_cap self (symbols_of balances) ;;
   report_frame (groupby_symbol_apply py balances) coin_info_dict).
Proof.
  intros H. unfold report, bindR. rewrite H, groupby_index.
  unfold extract_additional_coin_info, invoke, lift.
  now destruct (coin_market_cap self (symbols_of balances)).
Qed.

(** ** The coin information in the joined frame *)

Lemma get_tabulate {V} (h : string -> V) (fs : list string) (k : string) :
  get (map (fun c => (c, h c)) fs) k = if mem k fs then Some (h k) else None.
Proof.
  induction fs as [|f fs IH]; simpl; [reflexivity|].
  rewrite (String.eqb_sym k f).
  destruct (String.eqb_spec f k) as [->|Hne]; simpl; [reflexivity | exact IH].
Qed.

Lemma get_absent {V} (d : dict V) (k : string) :
  (forall c, In c (keys d) -> c <> k) -> get d k = None.
Proof.
  intros H. apply get_None. intros Hin. exact (H k Hin eq_refl).
Qed.

Lemma position_get (d : dict (dict cell)) (h : dict cell -> cell) (k : string) :
  match position (Key k) (map Key (keys d)) with
  | Some i => nth i (map (fun entry => h (snd entry)) d) NaN
  | None => NaN
  end
  = match get d k with
    | Some entry => h entry
    | None => NaN
    end.
Proof.
  induction d as [|[k' e] d IH]; simpl; [reflexivity|].
  destruct (String.eqb k' k); [reflexivity|].
  rewrite <- IH. now destruct (position (Key k) (map Key (keys d))).
Qed.

Lemma stored_NaN (col : list cell) : stored col NaN = NaN.
Proof.
  unfold stored. now destruct (existsb is_str col), (existsb is_num col).
Qed.

Lemma stored_value (col : list cell) (v : cell) : v <> PyNone -> stored col v = v.
Proof.
  intros Hv. unfold stored.
  destruct (existsb is_str col), (existsb is_num col); try reflexivity.
  destruct v; [reflexivity | reflexivity | congruence].
Qed.

Lemma maybe_convert_stored (col : list cell) :
  maybe_convert_objects col = map (stored col) col.
Proof.
  unfold maybe_convert_objects, stored.
  destruct (existsb is_str col); [symmetry; apply map_id|].
  destruct (existsb is_num col); [reflexivity | symmetry; apply map_id].
Qed.

Lemma coin_columns_cells (ks : list string) (d : dict (dict cell)) :
  coin_columns ks d
  = map (fun f => (f, map (fun k => coin_cell d k f) ks)) (field_names d).
Proof.
  unfold coin_columns, coin_columns_of, from_dict_index. cbn [columns].
  rewrite map_map. apply map_ext. intros f. cbn [fst snd]. f_equal.
  rewrite maybe_convert_stored. unfold field_values at 2. rewrite map_map.
  unfold reindex. rewrite map_map. apply map_ext. intros k.
  etransitivity.
  - exact (position_get d (fun entry => stored (field_values d f)
                                               match get entry f with
                                               | Some v => v
                                               | None => NaN
                                               end) k).
  - unfold coin_cell. destruct (get d k) as [entry|]; [|reflexivity].
    destruct (get entry f); [reflexivity | apply stored_NaN].
Qed.

(** The fields of the coin information are the keys of its entries. *)
Lemma add_field_In (seen : list string) (k x : string) :
  In x (add_field seen k) <-> In x seen \/ x = k.
Proof.
  unfold add_field. destruct (mem k seen) eqn:E.
  - apply mem_In in E. split; [tauto | intros [H| ->]; assumption].
  - rewrite in_app_iff. simpl. intuition.
Qed.

Lemma fold_add_field_In (ks : list string) :
  forall seen x, In x (fold_left add_field ks seen) <-> In x seen \/ In x ks.
Proof.
  induction ks as [|k ks IH]; intros seen x; simpl; [tauto|].
  rewrite IH, add_field_In. intuition.
Qed.

Lemma fold_entries_In (d : dict (dict cell)) :
  forall seen x,
    In x (fold_left (fun seen entry => fold_left add_field (keys (snd entry)) seen) d seen)
    <-> In x seen \/ exists entry, In entry d /\ In x (keys (snd entry)).
Proof.
  induction d as [|e d IH]; intros seen x; simpl.
  - split; [tauto | intros [H|[entry [[] _]]]; assumption].
  - rewrite IH, fold_add_field_In. split.
    + intros [[H|H]|[entry [H1 H2]]]; eauto.
    + intros [H|[entry [[<-|H1] H2]]]; eauto.
Qed.

Lemma field_names_In (d : dict (dict cell)) (x : string) :
  In x (field_names d) <-> exists entry, In entry d /\ In x (keys (snd entry)).
Proof.
  unfold field_names. rewrite fold_entries_In. simpl. tauto.
Qed.

Lemma get_Some_In {V} (d : dict V) (k : string) (v : V) :
  get d k = Some v -> In k (keys d).
Proof.
  intros H. destruct (in_dec string_dec k (keys d)) as [Hin|Hn]; [assumption|].
  apply get_None in Hn. congruence.
Qed.

(** The kind of the price column, read off the entries. *)
Lemma prices_is_str (d : dict (dict cell)) :
  existsb is_str (field_values d "price_usd") = existsb (fun entry => quoted (snd entry)) d.
Proof.
  unfold field_values, quoted. induction d as [|e d IH]; simpl; [reflexivity|].
  rewrite IH. now destruct (get (snd e) "price_usd") as [[s|x|]|].
Qed.

Lemma prices_is_num (d : dict (dict cell)) :
  existsb (fun entry => quoted (snd entry)) d = false ->
  existsb is_num (field_values d "price_usd")
  = negb (forallb (fun entry => unpriced (snd entry)) d).
Proof.
  unfold field_values, quoted, unpriced. induction d as [|e d IH]; simpl; [reflexivity|].
  destruct (get (snd e) "price_usd") as [[s|x|]|]; simpl; try reflexivity; try discriminate.
  exact IH.
Qed.

Lemma forallb_none_to_nan (col : list cell) :
  existsb is_str col = false -> forallb is_num (map none_to_nan col) = true.
Proof.
  induction col as [|[s|x|] col IH]; simpl; auto; discriminate.
Qed.

Lemma forallb_existsb_num (col : list cell) :
  col <> [] -> existsb is_num col = false -> forallb is_num col = false.
Proof.
  destruct col as [|[s|x|] col]; simpl; congruence.
Qed.

Lemma forallb_existsb_str (col : list cell) :
  existsb is_str col = true -> forallb is_num col = false.
Proof.
  induction col as [|[s|x|] col IH]; simpl; auto; discriminate.
Qed.

Lemma price_dtype_entries (d : dict (dict cell)) :
  mem "price_usd" (field_names d) = true ->
  price_dtype (from_dict_index d) = if object_prices d then Object else Float64.
Proof.
  intros Hp. unfold price_dtype, from_dict_index. cbn [columns].
  rewrite get_tabulate, Hp. unfold object_prices, maybe_convert_objects, dtype_of.
  pose proof (prices_is_str d) as Hs.
  destruct (existsb is_str (field_values d "price_usd")) eqn:Es.
  - rewrite (forallb_existsb_str _ Es), <- Hs. reflexivity.
  - rewrite <- Hs. cbn [orb]. rewrite (prices_is_num d (eq_sym Hs)).
    destruct (forallb (fun entry => unpriced (snd entry)) d) eqn:En; cbn [negb].
    + rewrite forallb_existsb_num; [reflexivity| |].
      * apply mem_In, field_names_In in Hp as [entry [Hin _]].
        unfold field_values. destruct d; [destruct Hin | discriminate].
      * rewrite (prices_is_num d (eq_sym Hs)), En. reflexivity.
    + now rewrite forallb_none_to_nan.
Qed.

Lemma usable_priced d :
  usable d = true -> exists entry, In entry d /\ priced (snd entry) = true.
Proof.
  unfold usable. intros H.
  apply andb_prop in H as [H _]. apply andb_prop in H as [H _].
  apply existsb_exists in H. exact H.
Qed.

Lemma usable_not_quoted d entry :
  usable d = true -> In entry d -> quoted (snd entry) = false.
Proof.
  unfold usable. intros H Hin.
  apply andb_prop in H as [H _]. apply andb_prop in H as [_ H].
  rewrite forallb_forall in H. apply negb_true_iff. now apply H.
Qed.

Lemma usable_price d : usable d = true -> mem "price_usd" (field_names d) = true.
Proof.
  intros H. destruct (usable_priced d H) as [entry [Hin Hp]].
  apply mem_In, field_names_In. exists entry. split; [assumption|].
  unfold priced in Hp. destruct (get (snd entry) "price_usd") eqn:G; [|discriminate].
  exact (get_Some_In _ _ _ G).
Qed.

Lemma usable_object d : usable d = true -> object_prices d = false.
Proof.
  intros H. unfold object_prices. apply orb_false_iff. split.
  - destruct (existsb (fun entry => quoted (snd entry)) d) eqn:E; [|reflexivity].
    apply existsb_exists in E as [entry [Hin Hq]].
    rewrite (usable_not_quoted d entry H Hin) in Hq. discriminate.
  - destruct (usable_priced d H) as [entry [Hin Hp]].
    destruct (forallb (fun entry => unpriced (snd entry)) d) eqn:E; [|reflexivity].
    rewrite forallb_forall in E. specialize (E entry Hin).
    unfold priced in Hp. unfold unpriced in E.
    destruct (get (snd entry) "price_usd") as [[s|x|]|]; discriminate.
Qed.

Lemma usable_float d : usable d = true -> price_dtype (from_dict_index d) = Float64.
Proof.
  intros H. now rewrite (price_dtype_entries d (usable_price d H)), (usable_object d H).
Qed.

Lemma usable_field d f :
  usable d = true -> In f (field_names d) -> ~ In (renamed f) own_labels.
Proof.
  unfold usable. intros H Hf.
  apply andb_prop in H as [_ H].
  rewrite forallb_forall in H. specialize (H f Hf).
  apply negb_true_iff in H. now apply mem_not_In.
Qed.

Lemma usable_not_own d (c : string) :
  usable d = true -> In (renamed c) own_labels -> mem c (field_names d) = false.
Proof.
  intros H Hc. apply mem_not_In. intros Hf. exact (usable_field d c H Hf Hc).
Qed.

Lemma usable_numeric d k :
  usable d = true -> coin_cell d k "price_usd" = Num (price_of d k).
Proof.
  intros H. unfold price_of, coin_cell.
  destruct (get d k) as [entry|] eqn:G; [|reflexivity].
  apply get_In in G. pose proof (usable_not_quoted d _ H G) as Hq.
  unfold quoted in Hq. cbn [snd] in Hq.
  destruct (get entry "price_usd") as [v|]; [|reflexivity].
  unfold stored. rewrite prices_is_str.
  destruct (existsb (fun entry => quoted (snd entry)) d) eqn:E.
  - apply existsb_exists in E as [e [Hin He]].
    rewrite (usable_not_quoted d e H Hin) in He. discriminate.
  - rewrite (prices_is_num d E).
    pose proof (usable_object d H) as Ho. unfold object_prices in Ho.
    apply orb_false_iff in Ho as [_ Ho]. rewrite Ho. cbn [negb].
    destruct v as [s|x|]; [discriminate | reflexivity | reflexivity].
Qed.

Lemma mul_nan (x : float) : PrimFloat.mul x nan = nan.
Proof.
  apply Prim2SF_inj. rewrite mul_spec.
  change (Prim2SF nan) with S754_nan.
  now destruct (Prim2SF x).
Qed.

(** The product of the balances and the prices, row by row: it raises
    when a row has a string as its price and a number as its balance. *)
Lemma multiply_map {A} (f : A -> float) (g : A -> cell) (l : list A) :
  multiply (map f l) (map g l)
  = if existsb (fun a => is_str (g a) && negb (PrimFloat.is_nan (f a))) l
    then Raise TypeError
    else Ok (map (fun a => PrimFloat.mul (f a) (number_of (g a))) l).
Proof.
  induction l as [|a l IH]; [reflexivity|].
  cbn [map multiply existsb]. rewrite IH. unfold multiply_cell.
  destruct (g a) as [s|p|]; cbn [is_str number_of andb orb bind].
  - destruct (PrimFloat.is_nan (f a)); cbn [negb orb bind]; [|reflexivity].
    rewrite mul_nan. now destruct (existsb _ l).
  - now destruct (existsb _ l).
  - rewrite mul_nan. now destruct (existsb _ l).
Qed.

Lemma truediv_length (dt : dtype) (x p : list float) (d : float) :
  truediv dt x d = Ok p -> List.length p = List.length x.
Proof.
  assert (Hd : Ok (div x d) = Ok p -> List.length p = List.length x).
  { intros [= <-]. unfold div. now rewrite length_map. }
  unfold truediv. intros H. destruct dt; [auto|].
  destruct x as [|t x]; [now injection H as <-|].
  destruct (PrimFloat.eqb d 0%float); [discriminate | auto].
Qed.

Lemma applied_balances py balances :
  map combined_balance (applied py balances)
  = map (aggregated_balance balances) (symbols_of balances).
Proof. unfold applied. now rewrite map_map. Qed.

Lemma with_values_new cols x p :
  mem "total_value_usd" (map fst cols) = false ->
  mem "portfolio_percentage" (map fst cols) = false ->
  with_values cols x p
  = cols ++ [ ("total_value_usd", map Num x);
              ("portfolio_percentage", map Num p) ].
Proof.
  intros Htv Hpp. unfold with_values, set_column at 2. rewrite Htv.
  unfold set_column, mem. rewrite map_app, existsb_app.
  fold (mem "portfolio_percentage" (map fst cols)). rewrite Hpp.
  now rewrite <- app_assoc.
Qed.

Lemma set_column_fields cols c col :
  map fst (set_column cols c col) = add_field (map fst cols) c.
Proof.
  unfold set_column, add_field. destruct (mem c (map fst cols)).
  - induction cols as [|[c' col'] cols IH]; simpl; [reflexivity|].
    destruct (String.eqb c' c); simpl; [reflexivity | now rewrite IH].
  - now rewrite map_app.
Qed.

Lemma mem_add_field (c f : string) (fs : list string) :
  c <> f -> mem c (add_field fs f) = mem c fs.
Proof.
  intros Hne. unfold add_field. destruct (mem f fs); [reflexivity|].
  unfold mem. rewrite existsb_app. simpl.
  apply String.eqb_neq in Hne. rewrite Hne. now rewrite !orb_false_r.
Qed.

Lemma with_values_symbol cols x p :
  mem "symbol" (map fst (with_values cols x p)) = mem "symbol" (map fst cols).
Proof.
  unfold with_values. rewrite !set_column_fields, !mem_add_field by discriminate.
  reflexivity.
Qed.

Lemma coin_columns_fields symbols d :
  map fst (coin_columns symbols d) = field_names d.
Proof.
  rewrite coin_columns_cells, map_map. apply map_id.
Qed.

(** The report of a grouped frame with rows, as a decision on the coin
    information and the balances. *)
Lemma report_frame_cases py balances d :
  balances <> [] ->
  report_frame (groupby_symbol_apply py balances) d
  = let fs := field_names d in
    let ks := symbols_of balances in
    let x := map (total_value balances d) ks in
    let dt := price_dtype (from_dict_index d) in
    if mem "source" fs || mem "balance" fs then Raise ValueError
    else if negb (mem "price_usd" fs) then Raise (KeyError "price_usd")
    else if existsb (fun k => is_str (coin_cell d k "price_usd")
                              && negb (PrimFloat.is_nan (aggregated_balance balances k))) ks
    then Raise TypeError
    else try p <- truediv dt x (column_sum dt x) ;;
         if mem "symbol" fs then Raise ValueError
         else Ok {| index := RangeIndex (List.length ks);
                    columns :=
                      ("Symbol", map Str ks)
                      :: ("Exchange(s) / Network(s)",
                          map (fun k => Str (source_label py balances k)) ks)
                      :: ("Balance", map (fun k => Num (aggregated_balance balances k)) ks)
                      :: map (fun c => (renamed (fst c), snd c))
                             (with_values (coin_columns ks d) x p) |}.
Proof.
  intros Hne. rewrite (groupby_nonempty py balances Hne).
  rewrite <- (map_map combined_balance Num), report_frame_eq. cbv zeta.
  destruct (mem "source" (field_names d) || mem "balance" (field_names d));
    [reflexivity|].
  rewrite coin_columns_cells at 1. rewrite get_tabulate.
  destruct (mem "price_usd" (field_names d)); [|reflexivity].
  cbn [negb]. rewrite applied_balances, multiply_map.
  destruct (existsb _ (symbols_of balances)); [reflexivity|].
  cbn [bind].
  change (map (fun a => PrimFloat.mul (aggregated_balance balances a)
                                      (number_of (coin_cell d a "price_usd")))
              (symbols_of balances))
    with (map (total_value balances d) (symbols_of balances)).
  destruct (truediv _ _ _) as [p|e]; [|reflexivity].
  cbn [bind]. rewrite with_values_symbol, coin_columns_fields.
  destruct (mem "symbol" (field_names d)); [reflexivity|].
  unfold applied, source_label.
  rewrite (map_map _ (fun s => Str (combined_source s))).
  rewrite (map_map (aggregated_balance balances) Num).
  reflexivity.
Qed.

Lemma usable_prices_not_str d balances (ks : list string) :
  usable d = true ->
  existsb (fun k => is_str (coin_cell d k "price_usd")
                    && negb (PrimFloat.is_nan (aggregated_balance balances k))) ks = false.
Proof.
  intros Hd. apply not_true_is_false. intros E.
  apply existsb_exists in E as [k [_ E]].
  rewrite (usable_numeric d k Hd) in E. discriminate.
Qed.

(** With usable coin information the report of a portfolio that holds
    something is the closed form. *)
Lemma report_frame_usable py balances d :
  balances <> [] -> usable d = true ->
  report_frame (groupby_symbol_apply py balances) d = Ok (tabulated py balances d).
Proof.
  intros Hne Hd. rewrite (report_frame_cases py balances d Hne). cbv zeta.
  rewrite (usable_not_own d "source" Hd), (usable_not_own d "balance" Hd),
    (usable_not_own d "symbol" Hd) by (simpl; tauto).
  rewrite (usable_price d Hd), (usable_float d Hd), (usable_prices_not_str d balances _ Hd).
  cbn [orb negb truediv column_sum bind].
  rewrite coin_columns_cells.
  assert (Hn : forall h : string -> list cell,
             map fst (map (fun f => (f, h f)) (field_names d)) = field_names d).
  { intros h. rewrite map_map. apply map_id. }
  rewrite with_values_new
    by (rewrite Hn; apply usable_not_own; [exact Hd | simpl; tauto]).
  unfold tabulated. do 5 f_equal.
  rewrite map_app, (map_map _ (fun c => (renamed (fst c), snd c))).
  reflexivity.
Qed.

Lemma report_usable py (self : Portfolio) (log : list call) d :
  Forall answers (adapters_of self) ->
  coin_market_cap self (symbols_of (holdings self)) = Ok d ->
  usable d = true ->
  holdings self <> [] ->
  report py self log =
  (log ++ map invocation (adapters_of self) ++ [GetCoinInfo (symbols_of (holdings self))],
   Ok (tabulated py (holdings self) d)).
Proof.
  intros Ha Hc Hd Hne.
  rewrite (report_run py self log _ _ (all_balances_answer self log Ha)).
  rewrite Hc. cbn [bind]. rewrite (report_frame_usable py _ d Hne Hd).
  now rewrite <- app_assoc.
Qed.

(** ** Binary64 arithmetic on missing values and zeros *)

Lemma div_nan (d : float) : PrimFloat.div nan d = nan.
Proof.
  apply Prim2SF_inj. rewrite div_spec.
  change (Prim2SF nan) with S754_nan. reflexivity.
Qed.

Lemma is_zero_spec (x : float) :
  is_zero x = true -> exists s, Prim2SF x = S754_zero s.
Proof.
  unfold is_zero. rewrite eqb_spec.
  change (Prim2SF 0) with (S754_zero false).
  destruct (Prim2SF x) as [s| s | |s m e]; try discriminate; eauto;
    destruct s; discriminate.
Qed.

Lemma is_nan_spec (x : float) :
  PrimFloat.is_nan x = false -> Prim2SF x <> S754_nan.
Proof.
  unfold PrimFloat.is_nan. rewrite eqb_spec. intros H E. rewrite E in H. discriminate.
Qed.

Lemma is_zero_false_spec (x : float) :
  is_zero x = false -> forall s, Prim2SF x <> S754_zero s.
Proof.
  unfold is_zero. rewrite eqb_spec. change (Prim2SF 0) with (S754_zero false).
  intros H s E. rewrite E in H. destruct s; discriminate.
Qed.

Lemma infinite_spec (x : float) (s : bool) :
  Prim2SF x = S754_infinity s -> PrimFloat.is_infinity x = true.
Proof.
  intros H.
  assert (E : x = if s then neg_infinity else infinity).
  { apply Prim2SF_inj. rewrite H. now destruct s. }
  rewrite E. now destruct s.
Qed.

Lemma div_by_zero (t d : float) :
  is_zero d = true -> is_zero t = false -> PrimFloat.is_nan t = false ->
  PrimFloat.is_infinity (PrimFloat.div t d) = true.
Proof.
  intros Hd Ht Hn. apply is_zero_spec in Hd as [sd Hd].
  pose proof (is_zero_false_spec t Ht) as Hz. pose proof (is_nan_spec t Hn) as Hnn.
  destruct (Prim2SF t) as [s|s| |s m e] eqn:E.
  - now destruct (Hz s).
  - apply (infinite_spec _ (xorb s sd)). rewrite div_spec, E, Hd. reflexivity.
  - now destruct Hnn.
  - apply (infinite_spec _ (xorb s sd)). rewrite div_spec, E, Hd. reflexivity.
Qed.

Lemma div_zero_by_zero (t d : float) :
  is_zero d = true -> is_zero t = true -> PrimFloat.div t d = nan.
Proof.
  intros Hd Ht. apply is_zero_spec in Hd as [sd Hd]. apply is_zero_spec in Ht as [st Ht].
  apply Prim2SF_inj. rewrite div_spec, Hd, Ht. reflexivity.
Qed.

(** ** Reading the closed form *)

Lemma get_renamed_absent (h : string -> list cell) (fs : list string) (k : string) :
  (forall f, In f fs -> renamed f <> k) ->
  get (map (fun f => (renamed f, h f)) fs) k = None.
Proof.
  intros H. apply get_absent. intros c Hc. unfold keys in Hc.
  rewrite map_map in Hc. cbn [fst] in Hc.
  apply in_map_iff in Hc as [f [<- Hf]]. now apply H.
Qed.

Lemma get_renamed_present (h : string -> list cell) (fs : list string) (f : string) :
  In f fs ->
  exists f', In f' fs /\ get (map (fun f => (renamed f, h f)) fs) (renamed f) = Some (h f').
Proof.
  induction fs as [|f0 fs IH]; simpl; [tauto|].
  intros Hin. destruct (String.eqb_spec (renamed f0) (renamed f)) as [E|Hne].
  - exists f0. auto.
  - destruct Hin as [->|Hin]; [congruence|].
    destruct (IH Hin) as [f' [Hf' G]]. exists f'. auto.
Qed.

Lemma tabulated_symbol py balances d :
  getitem (tabulated py balances d) "Symbol" = Ok (map Str (symbols_of balances)).
Proof. reflexivity. Qed.

Lemma tabulated_source py balances d :
  getitem (tabulated py balances d) "Exchange(s) / Network(s)"
  = Ok (map (fun k => Str (source_label py balances k)) (symbols_of balances)).
Proof. reflexivity. Qed.

Lemma tabulated_balance py balances d :
  getitem (tabulated py balances d) "Balance"
  = Ok (map (fun k => Num (aggregated_balance balances k)) (symbols_of balances)).
Proof. reflexivity. Qed.

Lemma tabulated_own py balances d (k : string) :
  usable d = true -> In k own_labels ->
  get (columns (tabulated py balances d)) k
  = get [ ("Symbol", map Str (symbols_of balances));
          ("Exchange(s) / Network(s)",
           map (fun k => Str (source_label py balances k)) (symbols_of balances));
          ("Balance", map (fun k => Num (aggregated_balance balances k)) (symbols_of balances));
          ("Total Value (USD)",
           map Num (map (total_value balances d) (symbols_of balances)));
          ("Portfolio Percentage",
           map Num (div (map (total_value balances d) (symbols_of balances))
                        (Pandas.sum (map (total_value balances d) (symbols_of balances))))) ] k.
Proof.
  intros Hd Hk. unfold tabulated. cbn [columns].
  assert (G : get (map (fun f => (renamed f, map (fun k => coin_cell d k f) (symbols_of balances)))
                       (field_names d)) k = None).
  { apply get_renamed_absent. intros f Hf E. subst k. exact (usable_field d f Hd Hf Hk). }
  cbn [get]. rewrite get_app, G. reflexivity.
Qed.

Lemma tabulated_coin py balances d (f : string) :
  usable d = true -> In f (field_names d) ->
  exists f', In f' (field_names d) /\
             getitem (tabulated py balances d) (renamed f)
             = Ok (map (fun k => coin_cell d k f') (symbols_of balances)).
Proof.
  intros Hd Hf. pose proof (usable_field d f Hd Hf) as Hown.
  destruct (get_renamed_present
              (fun f => map (fun k => coin_cell d k f) (symbols_of balances))
              (field_names d) f Hf) as [f' [Hf' G]].
  exists f'. split; [assumption|].
  unfold getitem, tabulated. cbn [columns get].
  destruct (String.eqb_spec "Symbol" (renamed f)) as [E|_];
    [exfalso; apply Hown; rewrite <- E; simpl; tauto|].
  destruct (String.eqb_spec "Exchange(s) / Network(s)" (renamed f)) as [E|_];
    [exfalso; apply Hown; rewrite <- E; simpl; tauto|].
  destruct (String.eqb_spec "Balance" (renamed f)) as [E|_];
    [exfalso; apply Hown; rewrite <- E; simpl; tauto|].
  now rewrite get_app, G.
Qed.

Lemma tabulated_names py balances d :
  column_names (tabulated py balances d)
  = [ "Symbol"; "Exchange(s) / Network(s)"; "Balance" ]
    ++ map renamed (field_names d)
    ++ [ "Total Value (USD)"; "Portfolio Percentage" ].
Proof.
  unfold column_names, tabulated. cbn [columns map fst app].
  now rewrite map_app, map_map.
Qed.

Lemma coin_cell_unknown d k f : get d k = None -> coin_cell d k f = NaN.
Proof. unfold coin_cell. now intros ->. Qed.

(** * The claims *)

(** ** C5: fault isolation in the collectors *)

(** C5, as stated, fails: when the first exchange raises, the collector
    raises with it and the second exchange, though configured, is never
    called; the report ends with that exception. *)
Lemma adapter_failure_not_isolated :
  In (Scenario.returning "kraken" [Scenario.holding "kraken" "BTC" 0.5])
     (exchanges Scenario.first_fails) /\
  get_balances_from_exchanges Scenario.first_fails []
  = ([GetBalances "binance"], Raise (Failure "binance")) /\
  ~ In (GetBalances "kraken") (fst (get_balances_from_exchanges Scenario.first_fails [])) /\
  report forward Scenario.first_fails []
  = ([GetBalances "binance"], Raise (Failure "binance")).
Proof.
  split; [simpl; tauto|]. split; [reflexivity|]. split; [|reflexivity].
  simpl. intros [H|[]]. discriminate.
Qed.

(** C5 (amended): the collectors call the adapters in the configured
    order, each at most once.  If every adapter answers, each is called
    exactly once and the balances are concatenated in that order.  If an
    adapter raises, the adapters before it have been called once each, the
    exception leaves the collector, and no adapter after it is called. *)
Theorem collector_stops_at_first_failure :
  forall (self : Portfolio) (before : list Adapter) (log : list call),
    Forall answers before ->
    (exchanges self = before ->
     get_balances_from_exchanges self log
     = (log ++ map invocation before, Ok (flat_map held before))) /\
    (networks self = before ->
     get_balances_from_networks self log
     = (log ++ map invocation before, Ok (flat_map held before))) /\
    (forall failed after e,
        get_balances failed = Raise e ->
        (exchanges self = before ++ failed :: after ->
         get_balances_from_exchanges self log
         = (log ++ map invocation before ++ [invocation failed], Raise e)) /\
        (networks self = before ++ failed :: after ->
         get_balances_from_networks self log
         = (log ++ map invocation before ++ [invocation failed], Raise e))).
Proof.
  intros self before log Hb.
  unfold get_balances_from_exchanges, get_balances_from_networks.
  repeat split.
  - intros ->. now rewrite collect_all_answer.
  - intros ->. now rewrite collect_all_answer.
  - intros ->. now apply collect_until_failure.
  - intros ->. now apply collect_until_failure.
Qed.

Lemma collector_stops_at_first_failure_witness :
  get_balances_from_exchanges Scenario.second_fails []
  = ([GetBalances "binance"; GetBalances "kraken"], Raise (Failure "kraken")).
Proof.
  refine (proj1 (proj2 (proj2 (collector_stops_at_first_failure
            Scenario.second_fails
            [Scenario.returning "binance" [Scenario.holding "binance" "BTC" 1]]
            [] _))
            (Scenario.failing "kraken")
            [Scenario.returning "coinbase" [Scenario.holding "coinbase" "ETH" 2]]
            (Failure "kraken") eq_refl) eq_refl).
  constructor; [|constructor]. exists [Scenario.holding "binance" "BTC" 1]. reflexivity.
Defined.

(** ** C4: the aggregated balance *)

(** C4, as stated, fails: the same three records of one symbol, 0.1, 0.2
    and 0.3, give the balance 0.6000000000000001 in one order and 0.6 in
    the other. *)
Lemma reordering_changes_balance :
  Permutation Scenario.ascending Scenario.descending /\
  iat (groupby_symbol_apply forward Scenario.ascending) 0 "balance"
  = Some (Num 0x1.3333333333334p-1) /\
  iat (groupby_symbol_apply forward Scenario.descending) 0 "balance"
  = Some (Num 0x1.3333333333333p-1) /\
  iat (groupby_symbol_apply forward Scenario.ascending) 0 "balance"
  <> iat (groupby_symbol_apply forward Scenario.descending) 0 "balance".
Proof.
  split; [exact (Permutation_rev Scenario.ascending)|].
  split; [reflexivity|]. split; [reflexivity|].
  intros H.
  apply (f_equal (fun c => match c with
                           | Some (Num x) => PrimFloat.eqb x 0x1.3333333333333p-1
                           | _ => false
                           end)) in H.
  vm_compute in H. discriminate.
Qed.

Lemma group_without (pre post : list BalanceRecord) (r : BalanceRecord) (k : string) :
  symbol r <> k ->
  filter (fun r => String.eqb (symbol r) k) (pre ++ r :: post)
  = filter (fun r => String.eqb (symbol r) k) (pre ++ post).
Proof.
  intros Hr. rewrite !filter_app. cbn [filter].
  apply String.eqb_neq in Hr. now rewrite Hr.
Qed.

(** C4 (amended): each symbol has one row in the grouped frame.  Its
    balance is the binary64 sum that [Series.sum] computes of the balances
    of the records of that symbol, taken in the order of the input, a NaN
    balance counting as 0: fewer than eight records are added one after the other, starting from
    0; eight to 128 records are added in eight lanes (record [j], [8 + j],
    [16 + j], ... in lane [j], over the full blocks of eight), the lanes
    are added in pairs, the records after the last full block are added one
    after the other, and the result is added to 0.  A record of another
    symbol, wherever it stands among the records, does not change it. *)
Theorem aggregated_balance_is_binary64_sum :
  forall (py : process) (balances : list BalanceRecord) (k : string),
    In k (map symbol balances) ->
    let v := map (fun r => if PrimFloat.is_nan (balance r) then 0%float else balance r)
                 (filter (fun r => String.eqb (symbol r) k) balances) in
    let n := List.length v in
    exists i b,
      nth_error (index_tolist (groupby_symbol_apply py balances)) i = Some k /\
      (forall j, nth_error (index_tolist (groupby_symbol_apply py balances)) j = Some k ->
                 j = i) /\
      iat (groupby_symbol_apply py balances) i "balance" = Some (Num b) /\
      b = Pandas.sum v /\
      (n < 8 -> b = PrimFloat.add 0%float (fold_left PrimFloat.add v 0%float)) /\
      (8 <= n <= 128 ->
       let r j :=
         fold_left PrimFloat.add
                   (map (fun blk => nth (8 * blk + j) v 0%float) (seq 1 (n / 8 - 1)))
                   (nth j v 0%float) in
       b = PrimFloat.add 0%float
             (fold_left PrimFloat.add (skipn (8 * (n / 8)) v)
                (PrimFloat.add
                   (PrimFloat.add (PrimFloat.add (r 0) (r 1)) (PrimFloat.add (r 2) (r 3)))
                   (PrimFloat.add (PrimFloat.add (r 4) (r 5)) (PrimFloat.add (r 6) (r 7)))))) /\
      (forall (pre post : list BalanceRecord) (other : BalanceRecord),
          balances = pre ++ post -> symbol other <> k ->
          exists j,
            nth_error (index_tolist (groupby_symbol_apply py (pre ++ other :: post))) j
            = Some k /\
            iat (groupby_symbol_apply py (pre ++ other :: post)) j "balance"
            = Some (Num b)).
Proof.
  intros py balances k Hk. cbv zeta.
  destruct (symbol_row balances k Hk) as [i Hi].
  exists i, (Pandas.sum (map balance (filter (fun r => String.eqb (symbol r) k) balances))).
  rewrite groupby_index. split; [assumption|].
  split; [|split; [|split; [|split; [|split]]]].
  - intros j Hj.
    apply (proj1 (NoDup_nth_error (symbols_of balances)) (group_keys_NoDup _)).
    + apply nth_error_Some. congruence.
    + congruence.
  - exact (proj2 (groupby_row py balances i k Hi)).
  - now rewrite sum_nan_as_zero, map_map.
  - intros Hn. rewrite length_map in Hn.
    rewrite sum_short by (now rewrite length_map). now rewrite map_map.
  - intros Hn. rewrite length_map in Hn.
    rewrite sum_lanes by (now rewrite length_map). cbv zeta. now rewrite !map_map.
  - intros pre post other -> Hr.
    assert (Hk' : In k (map symbol (pre ++ other :: post))).
    { rewrite map_app, in_app_iff in Hk. rewrite map_app, in_app_iff. simpl. tauto. }
    destruct (symbol_row _ k Hk') as [j Hj].
    exists j. rewrite groupby_index. split; [assumption|].
    rewrite (proj2 (groupby_row py _ j k Hj)).
    unfold combine_balances, group. cbn [combined_balance].
    now rewrite (group_without pre post other k Hr).
Qed.

Lemma aggregated_balance_is_binary64_sum_witness :
  exists i b,
    nth_error (index_tolist (groupby_symbol_apply forward Scenario.fed_twice)) i = Some "SOL" /\
    iat (groupby_symbol_apply forward Scenario.fed_twice) i "balance" = Some (Num b) /\
    b = 7%float.
Proof.
  destruct (aggregated_balance_is_binary64_sum forward Scenario.fed_twice "SOL")
    as [i [b [Hi [_ [Hb [_ [Hs _]]]]]]].
  - simpl. tauto.
  - exists i, b. split; [exact Hi|]. split; [exact Hb|].
    rewrite Hs by (simpl; lia). reflexivity.
Defined.

(** ** C8: the sources of a group *)

(** C8: for every symbol, the cell of the sources in the row of the
    symbol is a list of names joined with ["|"]; no name is listed twice,
    and the names are exactly the [source] fields of the records of that
    symbol.  Records from A, A and B give the two names A and B. *)
Theorem sources_are_deduplicated :
  forall (py : process) (balances : list BalanceRecord) (k : string),
    iterates_sets py ->
    In k (map symbol balances) ->
    exists i names,
      nth_error (index_tolist (groupby_symbol_apply py balances)) i = Some k /\
      iat (groupby_symbol_apply py balances) i "source"
      = Some (Str (String.concat "|" names)) /\
      NoDup names /\
      (forall s, In s names
                 <-> exists r, In r balances /\ symbol r = k /\ source r = s) /\
      (forall a b,
          a <> b ->
          Permutation (map source (filter (fun r => String.eqb (symbol r) k) balances))
                      [a; a; b] ->
          Permutation names [a; b]).
Proof.
  intros py balances k Hpy Hk.
  destruct (symbol_row balances k Hk) as [i Hi].
  destruct (Hpy (map source (group balances k))) as [Hnd Hin].
  exists i, (set_iter py (map source (group balances k))).
  rewrite groupby_index. split; [assumption|].
  split; [exact (proj1 (groupby_row py balances i k Hi))|].
  split; [assumption|]. split.
  - intros s. rewrite Hin, in_map_iff. unfold group. split.
    + intros [r [Hs Hr]]. apply filter_In in Hr as [Hr Hy].
      apply String.eqb_eq in Hy. eauto.
    + intros [r [Hr [Hy Hs]]]. exists r. split; [assumption|].
      apply filter_In. split; [assumption | now apply String.eqb_eq].
  - intros a b Hab Hperm. apply NoDup_Permutation; [assumption| |].
    + repeat constructor; simpl; intuition.
    + intros s. rewrite Hin. unfold group. split.
      * intros Hs. apply (Permutation_in _ Hperm) in Hs. simpl in *. tauto.
      * intros Hs. apply (Permutation_in _ (Permutation_sym Hperm)). simpl in *. tauto.
Qed.

Lemma sources_are_deduplicated_witness :
  exists i names,
    iat (groupby_symbol_apply forward Scenario.fed_twice) i "source"
    = Some (Str (String.concat "|" names)) /\
    Permutation names ["A"; "B"].
Proof.
  destruct (sources_are_deduplicated forward Scenario.fed_twice "SOL")
    as [i [names [_ [Hs [_ [_ Hab]]]]]].
  - exact forward_iterates_sets.
  - simpl. tauto.
  - exists i, names. split; [exact Hs|].
    apply Hab; [discriminate | apply Permutation_refl].
Defined.

(** ** C10: the label of the sources *)



(** The two orders do occur: the same group is labelled
    ["binance|kraken"] by one process and ["kraken|binance"] by the other. *)
Example source_label_two_orders :
  let row := [Scenario.holding "binance" "BTC" 1; Scenario.holding "kraken" "BTC" 0.5] in
  combined_source (combine_balances forward row) = "binance|kraken" /\
  combined_source (combine_balances backward row) = "kraken|binance".
Proof. split; reflexivity. Qed.

(** ** C6: two runs on the same inputs *)

Lemma iat_getitem df c col i :
  getitem df c = Ok col -> iat df i c = nth_error col i.
Proof.
  unfold getitem, iat. destruct (get (columns df) c); [|discriminate].
  now intros [= ->].
Qed.

Lemma same_sources_columns py1 py2 balances (ks : list string) :
  iterates_sets py1 -> iterates_sets py2 ->
  Forall2 same_sources
          (map (fun s => Str (combined_source s))
               (map (fun k => combine_balances py1 (group balances k)) ks))
          (map (fun s => Str (combined_source s))
               (map (fun k => combine_balances py2 (group balances k)) ks)).
Proof.
  intros H1 H2. induction ks as [|k ks IH]; simpl; constructor; [|exact IH].
  exists (set_iter py1 (map source (group balances k))),
         (set_iter py2 (map source (group balances k))).
  split; [reflexivity|]. split; [reflexivity|].
  destruct (H1 (map source (group balances k))) as [Hn1 Hi1].
  destruct (H2 (map source (group balances k))) as [Hn2 Hi2].
  apply NoDup_Permutation; [assumption | assumption |].
  intros x. now rewrite Hi1, Hi2.
Qed.

Lemma report_frame_two_processes py1 py2 balances d :
  iterates_sets py1 -> iterates_sets py2 ->
  match report_frame (groupby_symbol_apply py1 balances) d,
        report_frame (groupby_symbol_apply py2 balances) d with
  | Ok df1, Ok df2 => same_report df1 df2
  | Raise e1, Raise e2 => e1 = e2
  | _, _ => False
  end.
Proof.
  intros H1 H2. destruct balances as [|r balances].
  - destruct (report_frame_empty py1 d) as [e He].
    change (groupby_symbol_apply py2 []) with (groupby_symbol_apply py1 []).
    now rewrite He.
  - rewrite !report_frame_cases by discriminate. cbv zeta.
    destruct (mem "source" (field_names d) || mem "balance" (field_names d));
      [reflexivity|].
    destruct (negb (mem "price_usd" (field_names d))); [reflexivity|].
    destruct (existsb _ (symbols_of (r :: balances))); [reflexivity|].
    destruct (truediv _ _ _) as [p|e]; [|reflexivity].
    cbn [bind]. destruct (mem "symbol" _); [reflexivity|].
    split; [reflexivity|]. split; [reflexivity|]. split.
    + intros c Hc. unfold getitem. cbn [columns get].
      destruct (String.eqb "Symbol" c); [reflexivity|].
      apply not_eq_sym, String.eqb_neq in Hc. now rewrite Hc.
    + eexists _, _. split; [reflexivity|]. split; [reflexivity|].
      pose proof (same_sources_columns py1 py2 (r :: balances)
                    (symbols_of (r :: balances)) H1 H2) as H.
      rewrite !map_map in H. exact H.
Qed.

(** C6, as stated, fails: on the same answers of the adapters and of the
    client, a process that iterates sets one way labels the sources of BTC
    ["binance|kraken"], a process that iterates them the other way
    ["kraken|binance"]. *)
Lemma source_label_differs_between_runs :
  iterates_sets forward /\ iterates_sets backward /\
  exists df1 df2,
    snd (report forward Scenario.two_exchanges []) = Ok df1 /\
    snd (report backward Scenario.two_exchanges []) = Ok df2 /\
    iat df1 0 "Symbol" = Some (Str "BTC") /\
    iat df2 0 "Symbol" = Some (Str "BTC") /\
    iat df1 0 "Exchange(s) / Network(s)" = Some (Str "binance|kraken") /\
    iat df2 0 "Exchange(s) / Network(s)" = Some (Str "kraken|binance") /\
    df1 <> df2.
Proof.
  split; [exact forward_iterates_sets|]. split; [exact backward_iterates_sets|].
  exists (tabulated forward (holdings Scenario.two_exchanges) Scenario.market),
         (tabulated backward (holdings Scenario.two_exchanges) Scenario.market).
  do 6 (split; [reflexivity|]).
  intros H.
  apply (f_equal (fun df => iat df 0 "Exchange(s) / Network(s)")) in H.
  vm_compute in H. discriminate.
Qed.

(** C6 (amended): two runs on the same answers of the adapters and of
    the client make the same calls and end the same way: both raise the
    same exception, or both produce a report with the same rows in the same
    order, the same columns and the same cells, except that a cell of
    Exchange(s) / Network(s) may join its source names in a different
    order in the two runs. *)
Theorem runs_agree_up_to_source_order :
  forall (py1 py2 : process) (self : Portfolio) (log : list call),
    iterates_sets py1 -> iterates_sets py2 ->
    fst (report py1 self log) = fst (report py2 self log) /\
    match snd (report py1 self log), snd (report py2 self log) with
    | Ok df1, Ok df2 => same_report df1 df2
    | Raise e1, Raise e2 => e1 = e2
    | _, _ => False
    end.
Proof.
  intros py1 py2 self log H1 H2.
  destruct (all_balances self log) as [log1 [balances|e]] eqn:Hb.
  - rewrite !(report_run _ self log log1 balances Hb). cbn [fst snd].
    split; [reflexivity|].
    destruct (coin_market_cap self (symbols_of balances)) as [d|e]; [|reflexivity].
    cbn [bind]. now apply report_frame_two_processes.
  - unfold report, bindR. rewrite Hb. cbn [fst snd]. split; reflexivity.
Qed.

Lemma runs_agree_up_to_source_order_witness :
  match snd (report forward Scenario.two_exchanges []),
        snd (report backward Scenario.two_exchanges []) with
  | Ok df1, Ok df2 => same_report df1 df2
  | Raise e1, Raise e2 => e1 = e2
  | _, _ => False
  end.
Proof.
  exact (proj2 (runs_agree_up_to_source_order forward backward Scenario.two_exchanges []
                  forward_iterates_sets backward_iterates_sets)).
Defined.

(** ** C1: the portfolio percentage *)

(** C1, as stated, fails, in both halves.  For an account that lists BTC
    with a balance of 0 the total value is 0, the denominator is 0, and the
    percentage of the row is NaN, not 0.  For an account that holds BTC and
    owes as much ETH the total values are 150000 and -150000, not zero,
    and the percentages are the two infinities, which do not add up to 1.
    And for an account that holds 50000, 6000 and 2000 dollars of three
    coins the percentages add up to 0.9999999999999999. *)
Lemma percentages_neither_zero_nor_normalized :
  (exists df,
      snd (report forward Scenario.zero_balance []) = Ok df /\
      getitem df "Total Value (USD)" = Ok [Num 0] /\
      getitem df "Portfolio Percentage" = Ok [Num nan] /\
      getitem df "Portfolio Percentage" <> Ok [Num 0]) /\
  (exists df,
      snd (report forward hedged []) = Ok df /\
      getitem df "Total Value (USD)" = Ok [Num 150000; Num (-150000)] /\
      getitem df "Portfolio Percentage" = Ok [Num infinity; Num neg_infinity]) /\
  (exists df p q r,
      snd (report forward three_coins []) = Ok df /\
      getitem df "Total Value (USD)" = Ok [Num 50000; Num 6000; Num 2000] /\
      getitem df "Portfolio Percentage" = Ok [Num p; Num q; Num r] /\
      PrimFloat.add (PrimFloat.add p q) r = 0x1.fffffffffffffp-1%float /\
      PrimFloat.add (PrimFloat.add p q) r <> 1%float).
Proof.
  split; [|split].
  - exists (tabulated forward (holdings Scenario.zero_balance) Scenario.market).
    do 3 (split; [reflexivity|]).
    intros H.
    apply (f_equal (fun r => match r with
                             | Ok [Num x] => PrimFloat.is_nan x
                             | _ => false
                             end)) in H.
    vm_compute in H. discriminate.
  - exists (tabulated forward (holdings hedged) Scenario.market).
    repeat split; reflexivity.
  - exists (tabulated forward (holdings three_coins) three_prices).
    eexists _, _, _. do 4 (split; [reflexivity|]).
    intros H. apply (f_equal (fun x => PrimFloat.eqb x 1%float)) in H.
    vm_compute in H. discriminate.
Qed.

(** C1 (amended): when every adapter answers, some balance is held, and
    the coin information of the client is usable (some entry gives
    [price_usd] as a number other than NaN, no entry gives it as a string,
    and no field carries the name or the label of a column the report
    makes itself), the report is produced and no error is raised.  The
    portfolio percentage of every row is the binary64 quotient of its
    total value by the denominator, which is the sum [Series.sum] computes
    of the total values with NaN counting as 0: fewer than eight rows are added one after the
    other, starting from 0; eight to 128 rows are added in eight lanes,
    the lanes in pairs, then the rows after the last full block of eight,
    and the result is added to 0.  When the denominator is zero, the
    percentage of a row whose total value is zero or NaN is NaN, and the
    percentage of any other row is an infinity. *)
Theorem percentage_is_quotient_by_sum :
  forall (py : process) (self : Portfolio) (log : list call) (d : dict (dict cell)),
    Forall answers (adapters_of self) ->
    coin_market_cap self (symbols_of (holdings self)) = Ok d ->
    usable d = true ->
    holdings self <> [] ->
    exists df x s,
      snd (report py self log) = Ok df /\
      getitem df "Total Value (USD)" = Ok (map Num x) /\
      getitem df "Portfolio Percentage"
      = Ok (map (fun t => Num (PrimFloat.div t s)) x) /\
      (let v := map (fun t => if PrimFloat.is_nan t then 0%float else t) x in
       let n := List.length v in
       s = Pandas.sum v /\
       (n < 8 -> s = PrimFloat.add 0%float (fold_left PrimFloat.add v 0%float)) /\
       (8 <= n <= 128 ->
        let r j :=
          fold_left PrimFloat.add
                    (map (fun blk => nth (8 * blk + j) v 0%float) (seq 1 (n / 8 - 1)))
                    (nth j v 0%float) in
        s = PrimFloat.add 0%float
              (fold_left PrimFloat.add (skipn (8 * (n / 8)) v)
                 (PrimFloat.add
                    (PrimFloat.add (PrimFloat.add (r 0) (r 1)) (PrimFloat.add (r 2) (r 3)))
                    (PrimFloat.add (PrimFloat.add (r 4) (r 5))
                                   (PrimFloat.add (r 6) (r 7))))))) /\
      (is_zero s = true ->
       forall t, In t x ->
         (is_zero t = true \/ t = nan -> PrimFloat.div t s = nan) /\
         (is_zero t = false -> PrimFloat.is_nan t = false ->
          PrimFloat.is_infinity (PrimFloat.div t s) = true)).
Proof.
  intros py self log d Ha Hc Hd Hne.
  exists (tabulated py (holdings self) d),
         (map (total_value (holdings self) d) (symbols_of (holdings self))),
         (Pandas.sum (map (total_value (holdings self) d) (symbols_of (holdings self)))).
  rewrite (report_usable py self log d Ha Hc Hd Hne). cbn [snd].
  split; [reflexivity|].
  unfold getitem. rewrite !(tabulated_own py _ d _ Hd) by (simpl; tauto).
  split; [reflexivity|]. split; [|split; [split; [|split]|]].
  - cbn [get String.eqb Ascii.eqb Bool.eqb]. unfold div. now rewrite map_map.
  - apply sum_nan_as_zero.
  - intros Hn. rewrite length_map in Hn. now apply sum_short.
  - intros Hn. rewrite length_map in Hn. now apply sum_lanes.
  - intros Hz t _. split.
    + intros [Ht| ->]; [now apply div_zero_by_zero | apply div_nan].
    + intros Ht Hn. now apply div_by_zero.
Qed.

Lemma percentage_is_quotient_by_sum_witness :
  exists df x s,
    snd (report forward Scenario.two_exchanges []) = Ok df /\
    getitem df "Total Value (USD)" = Ok (map Num x) /\
    getitem df "Portfolio Percentage"
    = Ok (map (fun t => Num (PrimFloat.div t s)) x).
Proof.
  destruct (percentage_is_quotient_by_sum forward Scenario.two_exchanges [] Scenario.market)
    as [df [x [s [Hr [Hv [Hp _]]]]]].
  - repeat constructor; eexists; reflexivity.
  - reflexivity.
  - reflexivity.
  - discriminate.
  - exists df, x, s. split; [exact Hr|]. split; [exact Hv | exact Hp].
Defined.

(** In the scenario of two exchanges and a manual file the percentages
    are 75000/81000 and 6000/81000, and their binary64 sum is 1. *)
Example percentages_of_two_exchanges :
  exists df p q,
    snd (report forward Scenario.two_exchanges []) = Ok df /\
    getitem df "Total Value (USD)" = Ok [Num 75000; Num 6000] /\
    getitem df "Portfolio Percentage" = Ok [Num p; Num q] /\
    PrimFloat.add p q = 1%float.
Proof.
  exists (tabulated forward (holdings Scenario.two_exchanges) Scenario.market).
  eexists _, _. repeat split; reflexivity.
Qed.

(** ** C2: a symbol without market data *)

(** C2, as stated, fails: XYZ is held next to BTC and the client has no
    entry for XYZ; the row of XYZ carries NaN, not 0, as its total value. *)
Lemma unknown_symbol_value_is_nan :
  exists df,
    snd (report forward Scenario.unknown_coin []) = Ok df /\
    iat df 1 "Symbol" = Some (Str "XYZ") /\
    iat df 1 "Balance" = Some (Num 10) /\
    iat df 1 "Total Value (USD)" = Some (Num nan) /\
    iat df 1 "Total Value (USD)" <> Some (Num 0).
Proof.
  exists (tabulated forward (holdings Scenario.unknown_coin)
                    [("BTC", Scenario.coin "Bitcoin" 50000 1)]).
  do 4 (split; [reflexivity|]).
  intros H.
  apply (f_equal (fun c => match c with
                           | Some (Num x) => PrimFloat.is_nan x
                           | _ => false
                           end)) in H.
  vm_compute in H. discriminate.
Qed.

(** C2 (amended): when every adapter answers and the coin information
    of the client is usable (some entry gives [price_usd] as a number other
    than NaN, no entry gives it as a string, and no field carries the name
    or the label of a column the report makes itself) but has no entry for
    a held symbol, the report is produced and has a row for that symbol.
    In that row every field of the client is NaN, and so are the total
    value and the portfolio percentage.  The row adds nothing to the
    denominator of the percentages: the denominator is the sum of the
    total values with every NaN replaced by 0, which for fewer than eight
    rows are added one after the other, starting from 0. *)
Theorem unknown_symbol_row_is_null :
  forall (py : process) (self : Portfolio) (log : list call) (d : dict (dict cell))
         (k : string),
    Forall answers (adapters_of self) ->
    coin_market_cap self (symbols_of (holdings self)) = Ok d ->
    usable d = true ->
    In k (map symbol (holdings self)) ->
    get d k = None ->
    exists df i x s,
      snd (report py self log) = Ok df /\
      iat df i "Symbol" = Some (Str k) /\
      (forall f, In f (field_names d) -> iat df i (renamed f) = Some NaN) /\
      getitem df "Total Value (USD)" = Ok (map Num x) /\
      nth_error x i = Some nan /\
      iat df i "Total Value (USD)" = Some NaN /\
      getitem df "Portfolio Percentage"
      = Ok (map (fun t => Num (PrimFloat.div t s)) x) /\
      iat df i "Portfolio Percentage" = Some NaN /\
      s = Pandas.sum (map (fun t => if PrimFloat.is_nan t then 0%float else t) x) /\
      (List.length x < 8 ->
       s = PrimFloat.add 0%float
             (fold_left PrimFloat.add
                        (map (fun t => if PrimFloat.is_nan t then 0%float else t) x)
                        0%float)).
Proof.
  intros py self log d k Ha Hc Hd Hk Hno.
  assert (Hne : holdings self <> []) by (intros E; rewrite E in Hk; exact Hk).
  destruct (symbol_row _ k Hk) as [i Hi].
  exists (tabulated py (holdings self) d), i,
         (map (total_value (holdings self) d) (symbols_of (holdings self))),
         (Pandas.sum (map (total_value (holdings self) d) (symbols_of (holdings self)))).
  rewrite (report_usable py self log d Ha Hc Hd Hne). cbn [snd].
  split; [reflexivity|].
  split. { rewrite (iat_getitem _ _ _ _ (tabulated_symbol _ _ _)).
           now rewrite nth_error_map, Hi. }
  assert (Hv : total_value (holdings self) d k = nan).
  { unfold total_value, price_of. rewrite (coin_cell_unknown d k _ Hno). apply mul_nan. }
  split.
  { intros f Hf. destruct (tabulated_coin py (holdings self) d f Hd Hf) as [f' [_ G]].
    rewrite (iat_getitem _ _ _ _ G), nth_error_map, Hi. cbn [option_map].
    now rewrite (coin_cell_unknown d k f' Hno). }
  unfold iat, getitem. rewrite !(tabulated_own py _ d _ Hd) by (simpl; tauto).
  cbn [get String.eqb Ascii.eqb Bool.eqb].
  split; [reflexivity|].
  split. { rewrite nth_error_map, Hi. cbn [option_map]. now rewrite Hv. }
  split. { rewrite map_map, nth_error_map, Hi. cbn [option_map]. now rewrite Hv. }
  split. { unfold div. now rewrite map_map. }
  split. { unfold div. rewrite !map_map, nth_error_map, Hi. cbn [option_map].
           rewrite Hv. unfold NaN. now rewrite div_nan. }
  split; [apply sum_nan_as_zero | apply sum_short].
Qed.

Lemma unknown_symbol_row_is_null_witness :
  exists df i,
    snd (report forward Scenario.unknown_coin []) = Ok df /\
    iat df i "Symbol" = Some (Str "XYZ") /\
    iat df i "Total Value (USD)" = Some NaN.
Proof.
  destruct (unknown_symbol_row_is_null forward Scenario.unknown_coin []
              [("BTC", Scenario.coin "Bitcoin" 50000 1)] "XYZ")
    as [df [i [x [s [Hr [Hs [_ [_ [_ [Hv _]]]]]]]]]].
  - repeat constructor; eexists; reflexivity.
  - reflexivity.
  - reflexivity.
  - simpl. tauto.
  - reflexivity.
  - exists df, i. split; [exact Hr|]. split; [exact Hs | exact Hv].
Defined.

(** ** C9: the fields of the report *)

(** C9, as stated, fails: the report of two exchanges and a manual file,
    with the seven documented fields of the client, has its twelve fields
    in another order than the one claimed: Symbol comes first, Balance
    third. *)
Lemma report_fields_in_another_order :
  exists df,
    snd (report forward Scenario.two_exchanges []) = Ok df /\
    column_names df
    = [ "Symbol"; "Exchange(s) / Network(s)"; "Balance"; "Full Name";
        "Price (USD)"; "Coin Rank"; "Market Cap"; "Max Supply"; "Total Supply";
        "Circulating Supply"; "Total Value (USD)"; "Portfolio Percentage" ] /\
    column_names df
    <> [ "Exchange(s) / Network(s)"; "Symbol"; "Full Name"; "Coin Rank";
         "Market Cap"; "Max Supply"; "Total Supply"; "Circulating Supply";
         "Balance"; "Price (USD)"; "Total Value (USD)"; "Portfolio Percentage" ].
Proof.
  exists (tabulated forward (holdings Scenario.two_exchanges) Scenario.market).
  split; [reflexivity|]. split; [reflexivity|].
  vm_compute. discriminate.
Qed.

(** C9 (amended): when every adapter answers, some balance is held, and
    the coin information of the client is usable (some entry gives
    [price_usd] as a number other than NaN, no entry gives it as a string,
    and no field carries the name or the label of a column the report
    makes itself), the report is produced and carries, in this order,
    Symbol, Exchange(s) / Network(s), Balance, the fields of the client in
    the order in which they first appear in its entries, under their
    labels, then Total Value (USD) and Portfolio Percentage.  With the
    seven documented fields of the client these are the twelve labels of
    the rename map, and only the order differs from the order of the
    map. *)
Theorem report_fields_follow_the_frame :
  forall (py : process) (self : Portfolio) (log : list call) (d : dict (dict cell)),
    Forall answers (adapters_of self) ->
    coin_market_cap self (symbols_of (holdings self)) = Ok d ->
    usable d = true ->
    holdings self <> [] ->
    exists df,
      snd (report py self log) = Ok df /\
      column_names df
      = [ "Symbol"; "Exchange(s) / Network(s)"; "Balance" ]
        ++ map renamed (field_names d)
        ++ [ "Total Value (USD)"; "Portfolio Percentage" ] /\
      (Permutation (field_names d) coin_info_fields ->
       Permutation (column_names df) (map snd get_rename_map)).
Proof.
  intros py self log d Ha Hc Hd Hne.
  exists (tabulated py (holdings self) d).
  rewrite (report_usable py self log d Ha Hc Hd Hne). cbn [snd].
  split; [reflexivity|]. split; [apply tabulated_names|].
  intros Hp. rewrite tabulated_names.
  rewrite (Permutation_map renamed Hp).
  apply NoDup_Permutation.
  - vm_compute. repeat constructor; simpl; intuition discriminate.
  - vm_compute. repeat constructor; simpl; intuition discriminate.
  - intros x. vm_compute. tauto.
Qed.

Lemma report_fields_follow_the_frame_witness :
  exists df,
    snd (report forward Scenario.two_exchanges []) = Ok df /\
    Permutation (column_names df) (map snd get_rename_map).
Proof.
  destruct (report_fields_follow_the_frame forward Scenario.two_exchanges [] Scenario.market)
    as [df [Hr [_ Hp]]].
  - repeat constructor; eexists; reflexivity.
  - reflexivity.
  - reflexivity.
  - discriminate.
  - exists df. split; [exact Hr|]. apply Hp. apply Permutation_refl.
Defined.

(** ** C3: a portfolio without balances *)

(** When no adapter holds anything the report raises, whatever the client
    answers. *)
Lemma empty_portfolio_raises py (self : Portfolio) (log : list call) :
  Forall answers (adapters_of self) ->
  holdings self = [] ->
  exists e, snd (report py self log) = Raise e.
Proof.
  intros Ha He.
  rewrite (report_run py self log _ _ (all_balances_answer self log Ha)), He.
  cbn [snd]. destruct (coin_market_cap self (symbols_of [])) as [d|e]; cbn [bind].
  - apply report_frame_empty.
  - eauto.
Qed.

(** C3 fails on the code: both exchanges answer with no balance, the
    client is asked about no symbol and answers with no entry, and
    [report] raises [KeyError] on the column [price_usd] instead of
    producing a report without rows. *)
Theorem empty_portfolio_key_error :
  forall py : process,
    holdings Scenario.nothing = [] /\
    report py Scenario.nothing []
    = ([GetBalances "binance"; GetBalances "kraken"; GetCoinInfo []],
       Raise (KeyError "price_usd")).
Proof. intros py. split; reflexivity. Qed.

(** ** C7: the rows of the report *)

(** When the client has no entry at all the report raises, whatever is
    held. *)
Lemma no_coin_info_raises py (self : Portfolio) (log : list call) :
  Forall answers (adapters_of self) ->
  coin_market_cap self (symbols_of (holdings self)) = Ok [] ->
  snd (report py self log) = Raise (KeyError "price_usd").
Proof.
  intros Ha Hc.
  rewrite (report_run py self log _ _ (all_balances_answer self log Ha)), Hc.
  cbn [snd bind]. apply report_frame_no_info.
Qed.

(** When a report is produced from usable coin information, its rows are
    the held symbols, each once, in sorted order; a symbol the client
    knows but nobody holds has no row. *)
Lemma report_rows_are_held_symbols py (self : Portfolio) (log : list call) d :
  Forall answers (adapters_of self) ->
  coin_market_cap self (symbols_of (holdings self)) = Ok d ->
  usable d = true ->
  holdings self <> [] ->
  exists df ks,
    snd (report py self log) = Ok df /\
    getitem df "Symbol" = Ok (map Str ks) /\
    NoDup ks /\ StronglySorted key_lt ks /\
    (forall k, In k ks <-> In k (map symbol (holdings self))).
Proof.
  intros Ha Hc Hd Hne.
  exists (tabulated py (holdings self) d), (symbols_of (holdings self)).
  rewrite (report_usable py self log d Ha Hc Hd Hne). cbn [snd].
  split; [reflexivity|]. split; [reflexivity|].
  split; [apply group_keys_NoDup|]. split; [apply group_keys_sorted|].
  intros k. apply symbols_of_In.
Qed.

(** C7 fails on the code: XYZ is held, the client has no entry for it,
    and [report] raises [KeyError] on the column [price_usd]; no row is
    produced for XYZ. *)
Theorem unknown_symbol_alone_key_error :
  forall py : process,
    In "XYZ" (symbols_of (holdings Scenario.only_unknown)) /\
    Scenario.client (symbols_of (holdings Scenario.only_unknown)) = Ok [] /\
    report py Scenario.only_unknown []
    = ([GetBalances "wallet1"; GetCoinInfo ["XYZ"]], Raise (KeyError "price_usd")).
Proof. intros py. repeat split; try reflexivity. simpl; tauto. Qed.

(** The percentages of six rows of equal value, 1/6 each in binary64, sum
    to 0.9999999999999999. *)
Example percentages_sum_below_one :
  let x := [1; 1; 1; 1; 1; 1]%float in
  Pandas.sum (div x (Pandas.sum x)) = 0x1.fffffffffffffp-1%float.
Proof. reflexivity. Qed.

(** ** The label of the sources in the report *)

(** In a report made from usable coin information, the cell of
    Exchange(s) / Network(s) in the row of a symbol is the [source] entry
    [combine_balances] returned for the group of the symbol. *)
Lemma report_source_cell py (self : Portfolio) (log : list call) d (i : nat) (k : string) :
  Forall answers (adapters_of self) ->
  coin_market_cap self (symbols_of (holdings self)) = Ok d ->
  usable d = true ->
  nth_error (symbols_of (holdings self)) i = Some k ->
  exists df,
    snd (report py self log) = Ok df /\
    iat df i "Symbol" = Some (Str k) /\
    iat df i "Exchange(s) / Network(s)"
    = Some (Str (combined_source (combine_balances py (group (holdings self) k)))).
Proof.
  intros Ha Hc Hd Hi.
  assert (Hne : holdings self <> []).
  { intros E. rewrite E in Hi. destruct i; discriminate. }
  exists (tabulated py (holdings self) d).
  rewrite (report_usable py self log d Ha Hc Hd Hne). cbn [snd].
  split; [reflexivity|]. split.
  - rewrite (iat_getitem _ _ _ _ (tabulated_symbol _ _ _)).
    now rewrite nth_error_map, Hi.
  - rewrite (iat_getitem _ _ _ _ (tabulated_source _ _ _)).
    now rewrite nth_error_map, Hi.
Qed.

(** * Further properties of the code *)

(** ** The three collectors as one loop *)

Lemma collect_accumulates (adapters : list Adapter) :
  forall balances log,
    collect adapters balances log
    = match collect adapters [] log with
      | (log', Ok found) => (log', Ok (balances ++ found))
      | (log', Raise e) => (log', Raise e)
      end.
Proof.
  induction adapters as [|a rest IH]; intros balances log; simpl.
  - unfold ret. now rewrite app_nil_r.
  - unfold bindR, invoke. destruct (get_balances a) as [[|r found]|e]; [| |reflexivity].
    + apply IH.
    + rewrite IH, (IH (r :: found)).
      destruct (collect rest [] (log ++ [GetBalances (name a)])) as [log' [more|e]];
        [|reflexivity].
      now rewrite <- app_assoc.
Qed.

Lemma collect_app (front back : list Adapter) :
  forall balances log,
    collect (front ++ back) balances log
    = match collect front balances log with
      | (log', Ok found) => collect back found log'
      | (log', Raise e) => (log', Raise e)
      end.
Proof.
  induction front as [|a rest IH]; intros balances log; simpl.
  - reflexivity.
  - unfold bindR, invoke. destruct (get_balances a) as [[|r found]|e];
      [apply IH | apply IH | reflexivity].
Qed.

Lemma all_balances_collect (self : Portfolio) (log : list call) :
  all_balances self log = collect (adapters_of self) [] log.
Proof.
  unfold adapters_of, all_balances, bindR.
  unfold get_balances_from_exchanges, get_balances_from_networks.
  rewrite collect_app.
  destruct (collect (exchanges self) [] log) as [log1 [ex|e]]; [|reflexivity].
  rewrite collect_app, (collect_accumulates (networks self) ex).
  destruct (collect (networks self) [] log1) as [log2 [nw|e]]; [|reflexivity].
  unfold get_balances_from_manual_file.
  destruct (manual self) as [m|]; simpl.
  - unfold bindR, invoke, ret. destruct (get_balances m) as [[|r found]|e].
    + now rewrite !app_nil_r.
    + now rewrite app_assoc.
    + reflexivity.
  - unfold ret. now rewrite !app_nil_r.
Qed.

(** X1: the three collectors of [report] together are one pass over the
    adapters in the order exchanges, networks, manual file: the same calls,
    the same balances, the same exception.  When every adapter answers,
    each is called once and the balances are what the adapters hold, in
    that order, an adapter that holds nothing contributing nothing. *)
Theorem all_balances_is_one_pass :
  forall (self : Portfolio) (log : list call),
    all_balances self log = collect (adapters_of self) [] log /\
    (Forall answers (adapters_of self) ->
     all_balances self log
     = (log ++ map invocation (adapters_of self), Ok (flat_map held (adapters_of self)))).
Proof.
  intros self log. split.
  - apply all_balances_collect.
  - intros Ha. now rewrite all_balances_collect, collect_all_answer.
Qed.

(** X2: when an adapter raises, whichever collector it belongs to, the
    report ends with that exception after calling the adapters before it
    and the failing one, once each; no later adapter and not the
    CoinMarketCap client is called. *)
Theorem report_stops_at_failing_adapter :
  forall (py : process) (self : Portfolio) (log : list call)
         (before : list Adapter) (failed : Adapter) (after : list Adapter) (e : exn),
    adapters_of self = before ++ failed :: after ->
    Forall answers before ->
    get_balances failed = Raise e ->
    report py self log
    = (log ++ map invocation before ++ [invocation failed], Raise e).
Proof.
  intros py self log before failed after e Hs Hb Hf.
  unfold report, bindR. rewrite all_balances_collect, Hs.
  now rewrite (collect_until_failure before Hb failed after e [] log Hf).
Qed.

Lemma report_stops_at_failing_adapter_witness :
  report forward network_fails []
  = ([GetBalances "binance"; GetBalances "solana"], Raise (Failure "solana")).
Proof.
  apply (report_stops_at_failing_adapter forward network_fails []
           [Scenario.returning "binance" [Scenario.holding "binance" "BTC" 1]]
           (Scenario.failing "solana")
           [Scenario.returning "ethereum" [Scenario.holding "ethereum" "ETH" 2];
            Scenario.returning "manual" [Scenario.holding "manual" "ETH" 2]]
           (Failure "solana")).
  - reflexivity.
  - repeat constructor. eexists; reflexivity.
  - reflexivity.
Defined.

(** X3: when every adapter answers, the report calls each adapter once,
    in order, and then the client exactly once, with the sorted distinct
    symbols of the balances, whatever the client answers; an exception of
    the client ends the report. *)
Theorem report_calls_client_once :
  forall (py : process) (self : Portfolio) (log : list call),
    Forall answers (adapters_of self) ->
    fst (report py self log)
    = log ++ map invocation (adapters_of self)
          ++ [GetCoinInfo (symbols_of (holdings self))] /\
    StronglySorted key_lt (symbols_of (holdings self)) /\
    (forall k, In k (symbols_of (holdings self)) <-> In k (map symbol (holdings self))) /\
    (forall e, coin_market_cap self (symbols_of (holdings self)) = Raise e ->
               snd (report py self log) = Raise e).
Proof.
  intros py self log Ha.
  rewrite (report_run py self log _ _ (all_balances_answer self log Ha)).
  cbn [fst snd]. split; [now rewrite <- app_assoc|].
  split; [apply group_keys_sorted|]. split; [intros k; apply symbols_of_In|].
  intros e He. now rewrite He.
Qed.

Lemma report_calls_client_once_witness :
  fst (report forward Scenario.two_exchanges [])
  = [GetBalances "binance"; GetBalances "kraken"; GetBalances "manual";
     GetCoinInfo ["BTC"; "ETH"]].
Proof.
  refine (proj1 (report_calls_client_once forward Scenario.two_exchanges [] _)).
  repeat constructor; eexists; reflexivity.
Defined.

(** ** When the frame of the report can be computed *)


Lemma symbols_of_nonempty (balances : list BalanceRecord) :
  balances <> [] -> symbols_of balances <> [].
Proof.
  intros Hne E. destruct balances as [|r balances]; [congruence|].
  assert (Hin : In (symbol r) (symbols_of (r :: balances)))
    by (apply symbols_of_In; now left).
  rewrite E in Hin. exact Hin.
Qed.







(** The unheld string and the missing prices at work: with a price given
    as a string for a coin nobody holds, the report of a zero balance
    raises, and the report of one BTC is computed; with [None] as the only
    price the report raises. *)
Example object_prices_at_work :
  report_frame (groupby_symbol_apply forward (holdings Scenario.zero_balance)) quoted_elsewhere
  = Raise ZeroDivisionError /\
  (exists df,
      report_frame (groupby_symbol_apply forward [Scenario.holding "binance" "BTC" 1])
                   quoted_elsewhere = Ok df /\
      getitem df "Portfolio Percentage" = Ok [Num 1]) /\
  report_frame (groupby_symbol_apply forward [Scenario.holding "binance" "BTC" 1]) no_prices
  = Raise ZeroDivisionError.
Proof.
  split; [reflexivity|]. split; [|reflexivity].
  eexists. split; reflexivity.
Qed.

(** ** The shape of a produced report *)

Lemma report_produced py (self : Portfolio) (log : list call) df :
  snd (report py self log) = Ok df ->
  exists balances d,
    snd (all_balances self log) = Ok balances /\
    coin_market_cap self (symbols_of balances) = Ok d /\
    balances <> [] /\
    report_frame (groupby_symbol_apply py balances) d = Ok df.
Proof.
  intros H. destruct (all_balances self log) as [log1 [balances|e]] eqn:Hb.
  - rewrite (report_run py self log log1 balances Hb) in H. cbn [snd] in H.
    destruct (coin_market_cap self (symbols_of balances)) as [d|e] eqn:Hc;
      [|discriminate].
    cbn [bind] in H. exists balances, d.
    split; [reflexivity|]. split; [assumption|]. split; [|assumption].
    intros ->. destruct (report_frame_empty py d) as [e He]. congruence.
  - unfold report, bindR in H. rewrite Hb in H. discriminate.
Qed.

Lemma set_column_lengths (n : nat) cols c col :
  Forall (fun c => List.length (snd c) = n) cols ->
  List.length col = n ->
  Forall (fun c => List.length (snd c) = n) (set_column cols c col).
Proof.
  intros Hc Hn. unfold set_column. destruct (mem c (map fst cols)).
  - induction Hc as [|[c' col'] cols Hc' Hrest IH]; simpl; [constructor|].
    destruct (String.eqb c' c); constructor; assumption.
  - apply Forall_app. split; [assumption | now repeat constructor].
Qed.

(** X6: every report that is produced has at least one row, a row for
    each held symbol and no other, in sorted order and without repetition,
    numbered from 0; and each of its columns has one cell for each row. *)
Theorem produced_report_shape :
  forall (py : process) (self : Portfolio) (log : list call) (df : DataFrame),
    snd (report py self log) = Ok df ->
    exists balances ks,
      snd (all_balances self log) = Ok balances /\
      ks <> [] /\
      index df = RangeIndex (List.length ks) /\
      getitem df "Symbol" = Ok (map Str ks) /\
      Forall (fun c => List.length (snd c) = List.length ks) (columns df) /\
      StronglySorted key_lt ks /\ NoDup ks /\
      (forall k, In k ks <-> In k (map symbol balances)).
Proof.
  intros py self log df H.
  destruct (report_produced py self log df H) as [balances [d [Hb [_ [Hne Hf]]]]].
  exists balances, (symbols_of balances). split; [assumption|].
  split; [now apply symbols_of_nonempty|].
  rewrite (report_frame_cases py balances d Hne) in Hf. cbv zeta in Hf.
  destruct (mem "source" (field_names d) || mem "balance" (field_names d));
    [discriminate|].
  destruct (negb (mem "price_usd" (field_names d))); [discriminate|].
  destruct (existsb _ (symbols_of balances)); [discriminate|].
  destruct (truediv _ _ _) as [p|e] eqn:Hp; [|discriminate]. cbn [bind] in Hf.
  apply truediv_length in Hp. rewrite length_map in Hp.
  destruct (mem "symbol" (field_names d)); [discriminate|].
  injection Hf as <-. cbn [index columns].
  split; [reflexivity|]. split; [reflexivity|].
  split; [|split; [apply group_keys_sorted|split; [apply group_keys_NoDup|]]].
  - repeat (constructor; [cbn [snd]; now rewrite length_map|]).
    apply Forall_map. cbn [snd].
    unfold with_values. repeat apply set_column_lengths.
    + rewrite coin_columns_cells. apply Forall_map. cbn [snd].
      apply Forall_forall. intros f _. now rewrite length_map.
    + now rewrite !length_map.
    + now rewrite length_map.
  - intros k. apply symbols_of_In.
Qed.

Lemma produced_report_shape_witness :
  exists df balances ks,
    snd (report forward Scenario.unknown_coin []) = Ok df /\
    snd (all_balances Scenario.unknown_coin []) = Ok balances /\
    getitem df "Symbol" = Ok (map Str ks) /\
    Forall (fun c => List.length (snd c) = List.length ks) (columns df).
Proof.
  exists (tabulated forward (holdings Scenario.unknown_coin)
                    [("BTC", Scenario.coin "Bitcoin" 50000 1)]).
  destruct (produced_report_shape forward Scenario.unknown_coin []
              (tabulated forward (holdings Scenario.unknown_coin)
                         [("BTC", Scenario.coin "Bitcoin" 50000 1)]) eq_refl)
    as [balances [ks [Hb [_ [_ [Hs [Hc _]]]]]]].
  exists balances, ks. split; [reflexivity|]. split; [exact Hb|]. split; [exact Hs | exact Hc].
Defined.

(** ** The order of the rows *)

Lemma sorted_keys_unique (l : list string) :
  forall l',
    StronglySorted key_lt l -> StronglySorted key_lt l' ->
    (forall x, In x l <-> In x l') -> l = l'.
Proof.
  induction l as [|a l IH]; intros [|b l'] Hl Hl' Hin.
  - reflexivity.
  - exfalso. apply (proj2 (Hin b)). now left.
  - exfalso. apply (proj1 (Hin a)). now left.
  - inversion Hl as [|? ? Hs Ha]; subst. inversion Hl' as [|? ? Hs' Hb]; subst.
    rewrite Forall_forall in Ha, Hb.
    assert (E : a = b).
    { destruct (proj1 (Hin a) (or_introl eq_refl)) as [E|Hal']; [now symmetry|].
      destruct (proj2 (Hin b) (or_introl eq_refl)) as [E|Hbl]; [assumption|].
      exfalso. apply (key_lt_irrefl a).
      apply (key_lt_trans a b a); [now apply Ha | now apply Hb]. }
    subst b. f_equal. apply IH; try assumption.
    intros x. split; intros Hx.
    + destruct (proj1 (Hin x) (or_intror Hx)) as [E|Hx']; [|assumption].
      subst x. exfalso. exact (key_lt_irrefl a (Ha a Hx)).
    + destruct (proj2 (Hin x) (or_intror Hx)) as [E|Hx']; [|assumption].
      subst x. exfalso. exact (key_lt_irrefl a (Hb a Hx)).
Qed.

(** X7: the rows of the grouped frame, and with them the rows of the
    report, do not depend on the order in which the adapters are configured
    or return their records: balances with the same symbols give the same
    rows in the same order. *)
Theorem row_order_ignores_input_order :
  forall (py : process) (balances balances' : list BalanceRecord),
    (forall k, In k (map symbol balances) <-> In k (map symbol balances')) ->
    index_tolist (groupby_symbol_apply py balances)
    = index_tolist (groupby_symbol_apply py balances').
Proof.
  intros py balances balances' H. rewrite !groupby_index.
  apply sorted_keys_unique; try apply group_keys_sorted.
  intros x. now rewrite !symbols_of_In.
Qed.

Lemma row_order_ignores_input_order_witness :
  index_tolist (groupby_symbol_apply forward (holdings Scenario.two_exchanges))
  = index_tolist (groupby_symbol_apply forward two_exchanges_reordered).
Proof.
  apply (row_order_ignores_input_order forward (holdings Scenario.two_exchanges)
           two_exchanges_reordered).
  intros k. simpl. tauto.
Defined.

(** ** What the client returned, in the report *)

Lemma get_renamed_first (h : string -> list cell) (fs : list string) (f : string) :
  In f fs ->
  exists f', In f' fs /\ renamed f' = renamed f /\
             get (map (fun f => (renamed f, h f)) fs) (renamed f) = Some (h f').
Proof.
  induction fs as [|f0 fs IH]; simpl; [tauto|].
  intros Hin. destruct (String.eqb_spec (renamed f0) (renamed f)) as [E|Hne].
  - exists f0. auto.
  - destruct Hin as [->|Hin]; [congruence|].
    destruct (IH Hin) as [f' [Hf' [E G]]]. exists f'. auto.
Qed.

Lemma stored_none (col : list cell) :
  stored col PyNone = PyNone \/ stored col PyNone = NaN.
Proof.
  unfold stored. destruct (existsb is_str col), (existsb is_num col); auto.
Qed.

(** X8: in a report made from usable coin information (some entry gives
    [price_usd] as a number other than NaN, no entry gives it as a string,
    and no field carries the name or the label of a column the report
    makes itself), the row of a held symbol shows, under the label of a
    field that shares its label with no other field, the string or number
    the client returned for that symbol and field; NaN when the client has
    no entry for the symbol or the entry lacks the field; and [None] or
    NaN when the client returned [None].  The total value of the row is
    its balance times the price when the client returned a number as the
    price of the symbol, and NaN when it returned [None] or nothing. *)
Theorem report_shows_client_values :
  forall (py : process) (self : Portfolio) (log : list call) (d : dict (dict cell))
         (i : nat) (k f : string),
    Forall answers (adapters_of self) ->
    coin_market_cap self (symbols_of (holdings self)) = Ok d ->
    usable d = true ->
    nth_error (symbols_of (holdings self)) i = Some k ->
    In f (field_names d) ->
    (forall f', In f' (field_names d) -> renamed f' = renamed f -> f' = f) ->
    exists df b,
      snd (report py self log) = Ok df /\
      iat df i "Symbol" = Some (Str k) /\
      (forall entry v,
          get d k = Some entry -> get entry f = Some v -> v <> PyNone ->
          iat df i (renamed f) = Some v) /\
      (forall entry,
          get d k = Some entry -> get entry f = Some PyNone ->
          iat df i (renamed f) = Some PyNone \/ iat df i (renamed f) = Some NaN) /\
      (get d k = None \/ (exists entry, get d k = Some entry /\ get entry f = None) ->
       iat df i (renamed f) = Some NaN) /\
      iat df i "Balance" = Some (Num b) /\
      (forall entry p,
          get d k = Some entry -> get entry "price_usd" = Some (Num p) ->
          iat df i "Total Value (USD)" = Some (Num (PrimFloat.mul b p))) /\
      (get d k = None
       \/ (exists entry, get d k = Some entry /\
                         (get entry "price_usd" = None
                          \/ get entry "price_usd" = Some PyNone)) ->
       iat df i "Total Value (USD)" = Some NaN).
Proof.
  intros py self log d i k f Ha Hc Hd Hi Hf Huniq.
  assert (Hne : holdings self <> []).
  { intros E. rewrite E in Hi. destruct i; discriminate. }
  exists (tabulated py (holdings self) d), (aggregated_balance (holdings self) k).
  rewrite (report_usable py self log d Ha Hc Hd Hne). cbn [snd].
  split; [reflexivity|].
  split. { rewrite (iat_getitem _ _ _ _ (tabulated_symbol _ _ _)).
           now rewrite nth_error_map, Hi. }
  assert (Hcell : iat (tabulated py (holdings self) d) i (renamed f)
                  = Some (coin_cell d k f)).
  { pose proof (usable_field d f Hd Hf) as Hown.
    destruct (get_renamed_first
                (fun f => map (fun k => coin_cell d k f) (symbols_of (holdings self)))
                (field_names d) f Hf) as [f' [Hf' [E G]]].
    rewrite (Huniq f' Hf' E) in G.
    unfold iat, tabulated. cbn [columns get].
    destruct (String.eqb_spec "Symbol" (renamed f)) as [E1|_];
      [exfalso; apply Hown; rewrite <- E1; simpl; tauto|].
    destruct (String.eqb_spec "Exchange(s) / Network(s)" (renamed f)) as [E1|_];
      [exfalso; apply Hown; rewrite <- E1; simpl; tauto|].
    destruct (String.eqb_spec "Balance" (renamed f)) as [E1|_];
      [exfalso; apply Hown; rewrite <- E1; simpl; tauto|].
    rewrite get_app, G. now rewrite nth_error_map, Hi. }
  assert (Hvalue : iat (tabulated py (holdings self) d) i "Total Value (USD)"
                   = Some (Num (PrimFloat.mul (aggregated_balance (holdings self) k)
                                              (number_of (coin_cell d k "price_usd"))))).
  { unfold iat. rewrite (tabulated_own py _ d _ Hd) by (simpl; tauto).
    cbn [get String.eqb Ascii.eqb Bool.eqb].
    rewrite map_map, nth_error_map, Hi. reflexivity. }
  rewrite Hcell, Hvalue. unfold coin_cell.
  split; [|split; [|split; [|split; [|split]]]].
  - intros entry v -> -> Hv. now rewrite stored_value.
  - intros entry -> ->.
    destruct (stored_none (field_values d f)) as [-> | ->]; auto.
  - intros [-> | [entry [-> ->]]]; reflexivity.
  - rewrite (iat_getitem _ _ _ _ (tabulated_balance _ _ _)).
    now rewrite nth_error_map, Hi.
  - intros entry p -> ->. now rewrite stored_value by discriminate.
  - intros [-> | [entry [-> [-> | ->]]]]; cbn [number_of]; rewrite ?mul_nan;
      try reflexivity.
    destruct (stored_none (field_values d "price_usd")) as [-> | ->];
      cbn [number_of]; now rewrite mul_nan.
Qed.

Lemma report_shows_client_values_witness :
  exists df b,
    snd (report forward Scenario.two_exchanges []) = Ok df /\
    iat df 1 "Symbol" = Some (Str "ETH") /\
    iat df 1 "Full Name" = Some (Str "Ethereum") /\
    iat df 1 "Balance" = Some (Num b) /\
    iat df 1 "Total Value (USD)" = Some (Num (PrimFloat.mul b 3000)).
Proof.
  destruct (report_shows_client_values forward Scenario.two_exchanges [] Scenario.market
              1 "ETH" "name")
    as [df [b [Hr [Hs [Hc [_ [_ [Hb [Hv _]]]]]]]]].
  - repeat constructor; eexists; reflexivity.
  - reflexivity.
  - reflexivity.
  - reflexivity.
  - simpl. tauto.
  - intros f' Hf' E. simpl in Hf'.
    repeat (destruct Hf' as [<-|Hf']; [first [reflexivity | discriminate E]|]).
    destruct Hf'.
  - exists df, b. split; [exact Hr|]. split; [exact Hs|].
    split; [|split; [exact Hb|]].
    + apply (Hc (Scenario.coin "Ethereum" 3000 2) (Str "Ethereum"));
        [reflexivity | reflexivity | discriminate].
    + apply (Hv (Scenario.coin "Ethereum" 3000 2) 3000%float); reflexivity.
Defined.

(** ** One source, one record *)

Lemma all_equal_NoDup (s : string) (names : list string) :
  NoDup names -> In s names -> (forall x, In x names -> x = s) -> names = [s].
Proof.
  intros Hnd Hin Hall. destruct names as [|a names]; [destruct Hin|].
  assert (a = s) by (apply Hall; now left). subst a.
  destruct names as [|b names]; [reflexivity|].
  assert (b = s) by (apply Hall; right; now left). subst b.
  inversion Hnd as [|? ? Hn _]. exfalso. apply Hn. now left.
Qed.

(** X9: when all records of a group come from one source, however many
    they are, the source label of the group is the name of that source,
    without a separator. *)
Theorem single_source_label :
  forall (py : process) (row : list BalanceRecord) (s : string),
    iterates_sets py ->
    single_source row s ->
    combined_source (combine_balances py row) = s.
Proof.
  intros py row s Hpy [Hne Hall].
  destruct (Hpy (map source row)) as [Hnd Hin].
  unfold combine_balances, Python.join. cbn [combined_source].
  rewrite (all_equal_NoDup s (set_iter py (map source row)) Hnd).
  - reflexivity.
  - apply Hin. destruct row as [|r row]; [congruence|].
    left. apply Hall. now left.
  - intros x Hx. apply Hin in Hx. apply in_map_iff in Hx as [r [<- Hr]]. now apply Hall.
Qed.

Lemma single_source_label_witness :
  combined_source (combine_balances backward spot_and_earn) = "binance".
Proof.
  apply (single_source_label backward spot_and_earn "binance" backward_iterates_sets).
  split; [discriminate|].
  intros r [<-|[<-|[]]]; reflexivity.
Defined.

Lemma zero_plus (x : float) :
  Prim2SF (PrimFloat.add 0%float (PrimFloat.add 0%float x))
  = match Prim2SF x with
    | S754_zero _ => S754_zero false
    | y => y
    end.
Proof.
  rewrite !add_spec. change (Prim2SF 0) with (S754_zero false).
  destruct (Prim2SF x) as [[|]| | |]; reflexivity.
Qed.

(** X10: the balance of a group of one record: a balance that is a
    number other than zero is carried over bit for bit; a missing (NaN)
    balance is reported as 0, not as missing; and a zero of either sign is
    reported as 0. *)
Theorem sole_record_balance :
  forall (py : process) (r : BalanceRecord),
    (PrimFloat.is_nan (balance r) = false -> is_zero (balance r) = false ->
     combined_balance (combine_balances py [r]) = balance r) /\
    (PrimFloat.is_nan (balance r) = true ->
     combined_balance (combine_balances py [r]) = 0%float) /\
    (is_zero (balance r) = true ->
     combined_balance (combine_balances py [r]) = 0%float).
Proof.
  intros py [s y b]. unfold combine_balances, Pandas.sum. cbn [combined_balance balance map].
  cbn [List.length pairwise_sum Nat.ltb Nat.leb add_to fold_left].
  split; [|split].
  - intros Hn Hz. rewrite Hn. apply Prim2SF_inj. rewrite zero_plus.
    pose proof (is_zero_false_spec b Hz) as Hz'.
    destruct (Prim2SF b); try reflexivity. exfalso. now apply (Hz' s0).
  - intros ->. reflexivity.
  - intros Hz. destruct (PrimFloat.is_nan b); [reflexivity|].
    apply Prim2SF_inj. rewrite zero_plus.
    apply is_zero_spec in Hz as [sz ->]. reflexivity.
Qed.

(** A balance of 1.5 is carried over; NaN becomes 0. *)
Example sole_record_balance_cases :
  combined_balance (combine_balances forward [Scenario.holding "binance" "BTC" 1.5])
  = 1.5%float /\
  combined_balance (combine_balances forward [Scenario.holding "binance" "BTC" nan])
  = 0%float.
Proof. split; reflexivity. Qed.

(** ** Two records *)

Lemma SF64add_comm (x y : spec_float) : SF64add x y = SF64add y x.
Proof.
  unfold SF64add, SFadd.
  destruct x as [[|]|[|]| |sx mx ex], y as [[|]|[|]| |sy my ey]; try reflexivity.
  now rewrite BinInt.Z.min_comm, BinInt.Z.add_comm.
Qed.

Lemma sum_pair (a b : float) :
  Prim2SF (Pandas.sum [a; b])
  = let a' := Prim2SF (if PrimFloat.is_nan a then 0%float else a) in
    let b' := Prim2SF (if PrimFloat.is_nan b then 0%float else b) in
    SF64add (S754_zero false) (SF64add (SF64add (S754_zero false) a') b').
Proof.
  unfold Pandas.sum. cbn [map List.length pairwise_sum Nat.ltb Nat.leb add_to fold_left].
  now rewrite !add_spec.
Qed.

Lemma padded_add_comm (x y : spec_float) :
  SF64add (S754_zero false) (SF64add (SF64add (S754_zero false) x) y)
  = SF64add (S754_zero false) (SF64add (SF64add (S754_zero false) y) x).
Proof.
  destruct x as [[|]|[|]| |sx mx ex], y as [[|]|[|]| |sy my ey]; try reflexivity.
  change (SF64add (S754_zero false) (S754_finite sx mx ex)) with (S754_finite sx mx ex).
  change (SF64add (S754_zero false) (S754_finite sy my ey)) with (S754_finite sy my ey).
  now rewrite (SF64add_comm (S754_finite sx mx ex)).
Qed.

Lemma sum_pair_comm (a b : float) : Pandas.sum [a; b] = Pandas.sum [b; a].
Proof.
  apply Prim2SF_inj. rewrite !sum_pair. cbv zeta. apply padded_add_comm.
Qed.

(** X11: a group of two records has the same balance whichever of the
    two comes first; the order of the records can change the balance only
    from three records on. *)
Theorem two_records_commute :
  forall (py : process) (r1 r2 : BalanceRecord),
    combined_balance (combine_balances py [r1; r2])
    = combined_balance (combine_balances py [r2; r1]).
Proof.
  intros py r1 r2. unfold combine_balances. cbn [combined_balance map].
  apply sum_pair_comm.
Qed.

(** X12: a record with a missing (NaN) balance is ignored by the sum:
    next to another record, before or after it, it leaves the balance the
    other record has alone. *)
Theorem missing_balance_is_ignored :
  forall (py : process) (r missing : BalanceRecord),
    PrimFloat.is_nan (balance missing) = true ->
    combined_balance (combine_balances py [r; missing])
    = combined_balance (combine_balances py [r]) /\
    combined_balance (combine_balances py [missing; r])
    = combined_balance (combine_balances py [r]).
Proof.
  intros py r missing Hm.
  assert (H : combined_balance (combine_balances py [missing; r])
              = combined_balance (combine_balances py [r])).
  { unfold combine_balances, Pandas.sum. cbn [combined_balance map]. rewrite Hm.
    cbn [List.length pairwise_sum Nat.ltb Nat.leb add_to fold_left].
    reflexivity. }
  split; [|exact H]. rewrite <- H. unfold combine_balances. cbn [combined_balance map].
  apply sum_pair_comm.
Qed.

Lemma missing_balance_is_ignored_witness :
  combined_balance (combine_balances forward
                      [Scenario.holding "binance" "BTC" 1.5;
                       Scenario.holding "kraken" "BTC" nan])
  = combined_balance (combine_balances forward [Scenario.holding "binance" "BTC" 1.5]).
Proof.
  exact (proj1 (missing_balance_is_ignored forward
                  (Scenario.holding "binance" "BTC" 1.5)
                  (Scenario.holding "kraken" "BTC" nan) eq_refl)).
Defined.

(** ** The file of a report *)

Lemma digit_inj (a b : nat) : a < 10 -> b < 10 -> digit a = digit b -> a = b.
Proof.
  intros Ha Hb H. unfold digit in H.
  apply (f_equal nat_of_ascii) in H.
  rewrite !nat_ascii_embedding in H by lia. lia.
Qed.

Lemma prefix_inj (p a b : string) : (p ++ a)%string = (p ++ b)%string -> a = b.
Proof.
  induction p as [|c p IH]; simpl; [auto|]. intros [= H]. auto.
Qed.

Lemma two_digits_split (n m : nat) (rest rest' : string) :
  n < 100 -> m < 100 ->
  (two_digits n ++ rest)%string = (two_digits m ++ rest')%string ->
  n = m /\ rest = rest'.
Proof.
  intros Hn Hm H. unfold two_digits in H. cbn [append] in H.
  injection H as H1 H2 H3.
  pose proof (Nat.div_mod_eq n 10). pose proof (Nat.div_mod_eq m 10).
  pose proof (Nat.mod_upper_bound n 10 ltac:(lia)).
  pose proof (Nat.mod_upper_bound m 10 ltac:(lia)).
  assert (n / 10 < 10) by (apply Nat.Div0.div_lt_upper_bound; lia).
  assert (m / 10 < 10) by (apply Nat.Div0.div_lt_upper_bound; lia).
  apply digit_inj in H1; [|assumption..]. apply digit_inj in H2; [|assumption..].
  change (n / 10 = m / 10) in H1. change (n mod 10 = m mod 10) in H2.
  split; [lia | assumption].
Qed.

Lemma append_assoc (a b c : string) :
  ((a ++ b) ++ c)%string = (a ++ (b ++ c))%string.
Proof.
  induction a as [|x a IH]; simpl; [reflexivity | now rewrite IH].
Qed.

Lemma strftime_split (t t' : datetime) (rest rest' : string) :
  is_datetime t = true -> is_datetime t' = true ->
  (strftime t ++ rest)%string = (strftime t' ++ rest')%string ->
  t = t' /\ rest = rest'.
Proof.
  unfold is_datetime. intros Ht Ht' H.
  repeat (apply andb_prop in Ht as [Ht ?]). repeat (apply andb_prop in Ht' as [Ht' ?]).
  repeat match goal with
         | H : Nat.leb _ _ = true |- _ => apply Nat.leb_le in H
         | H : Nat.ltb _ _ = true |- _ => apply Nat.ltb_lt in H
         end.
  destruct t as [y mo d h mi s], t' as [y' mo' d' h' mi' s'].
  cbn [year month day hour minute second] in *.
  unfold strftime, four_digits in H. cbn [year month day hour minute second] in H.
  rewrite !append_assoc in H.
  assert (y / 100 < 100) by (apply Nat.Div0.div_lt_upper_bound; lia).
  assert (y' / 100 < 100) by (apply Nat.Div0.div_lt_upper_bound; lia).
  pose proof (Nat.mod_upper_bound y 100 ltac:(lia)).
  pose proof (Nat.mod_upper_bound y' 100 ltac:(lia)).
  apply two_digits_split in H as [Ey1 H]; [|lia..].
  apply two_digits_split in H as [Ey2 H]; [|lia..].
  apply two_digits_split in H as [Emo H]; [|lia..].
  apply two_digits_split in H as [Ed H]; [|lia..].
  apply (prefix_inj "_") in H.
  apply two_digits_split in H as [Eh H]; [|lia..].
  apply two_digits_split in H as [Emi H]; [|lia..].
  apply two_digits_split in H as [Es H]; [|lia..].
  pose proof (Nat.div_mod_eq y 100). pose proof (Nat.div_mod_eq y' 100).
  assert (y = y') by lia. subst. split; reflexivity.
Qed.

(** X13: two reports are written to the same file exactly when they have
    the same format (CSV or spreadsheet) and their writers read the same
    second from the clock; reports written in different seconds never
    overwrite each other. *)
Theorem output_path_same_iff :
  forall (self self' : Portfolio) (now now' : datetime),
    is_datetime now = true -> is_datetime now' = true ->
    (output_path self now = output_path self' now'
     <-> raw_format self = raw_format self' /\ now = now').
Proof.
  intros self self' now now' Hn Hn'. unfold output_path. split.
  - destruct (raw_format self), (raw_format self');
      unfold joinpath, csv_file_name, excel_file_name; intros H;
      apply prefix_inj in H; apply (prefix_inj "/") in H;
      apply prefix_inj in H;
      apply (strftime_split _ _ _ _ Hn Hn') in H as [E Hext];
      first [discriminate Hext | now split].
  - intros [-> ->]. reflexivity.
Qed.

Lemma output_path_same_iff_witness :
  output_path Scenario.two_exchanges noon
  = "reports/portfolio/crypto_portfolio_report_20240309_120005.xlsx" /\
  (output_path Scenario.two_exchanges noon = output_path Scenario.zero_balance noon
   <-> raw_format Scenario.two_exchanges = raw_format Scenario.zero_balance /\ noon = noon).
Proof.
  split; [reflexivity|].
  apply (output_path_same_iff Scenario.two_exchanges Scenario.zero_balance noon noon);
    reflexivity.
Defined.
